(** * otter/dbattr.py: record adapters for the database attributes

    A shallow embedding of the classes of [otter/dbattr.py] ([DBAttr],
    [Source], [RA], [Name], [Photometry]) and the properties of their
    constructors and serialisers.

    Python values are a small inductive type, dictionaries with string keys
    are [gmap string _], exceptions are the [Raise] branch of [result].
    The library calls the module makes (the builtins [float] and [str],
    numpy's array conversion, astropy's [Angle]) are the variables of the
    section [DBAttr]. *)

From Stdlib Require Import Ascii String QArith.
From stdpp Require Import gmap strings pretty list fin_maps.

Set Warnings "-register-all".
Local Open Scope string_scope.

(** ** Values and exceptions *)

(** A Python float.  Finite values are the rationals they denote (rounding
    and overflow are not modelled); [FNan] is what numpy's mean of an empty
    array is. *)
Inductive float : Type :=
| FNum (q : Q)
| FNan.

(** The JSON-like values the input records hold. *)
Inductive pyval : Type :=
| PNone
| PBool (b : bool)
| PInt (z : Z)
| PFloat (f : float)
| PStr (s : string)
| PList (l : list pyval).

(** The exceptions the module can raise.  [Exception] is the one raised
    by the module itself, with its message. *)
Inductive pyerr : Type :=
| KeyError (key : string)
| TypeError
| ValueError
| AttributeError (attr : string)
| Exception (msg : string).

Inductive result (A : Type) : Type :=
| Ok (a : A)
| Raise (e : pyerr).
Arguments Ok {A} a.
Arguments Raise {A} e.

(** Sequencing: the first exception raised ends the computation. *)
#[global] Instance result_ret : MRet result := fun _ a => Ok a.
#[global] Instance result_bind : MBind result := fun _ _ k r =>
  match r with
  | Ok a => k a
  | Raise e => Raise e
  end.

(** A record of the input: a Python [dict] with string keys.  The order of
    the keys is not kept; nothing below reads it. *)
Abbreviation record := (gmap string pyval).

(** [d[k]]. *)
Definition getitem {V : Type} (d : gmap string V) (k : string) : result V :=
  match d !! k with
  | Some v => Ok v
  | None => Raise (KeyError k)
  end.

(** [k in d]. *)
Definition has_key {V : Type} (d : gmap string V) (k : string) : bool :=
  match d !! k with
  | Some _ => true
  | None => false
  end.

(** ** Strings *)

(** [c in s] for a one-character [c]. *)
Fixpoint contains (c : Ascii.ascii) (s : string) : bool :=
  match s with
  | EmptyString => false
  | String x r => if Ascii.eqb x c then true else contains c r
  end.

(** [s.split(c)] for a one-character separator: never empty, and an empty
    piece for every separator at an end or next to another one. *)
Fixpoint split (c : Ascii.ascii) (s : string) : list string :=
  match s with
  | EmptyString => [EmptyString]
  | String x r =>
      if Ascii.eqb x c then EmptyString :: split c r
      else match split c r with
           | h :: t => String x h :: t
           | [] => [String x EmptyString]
           end
  end.

Definition comma : Ascii.ascii := ","%char.
Definition hyphen : Ascii.ascii := "-"%char.

(** ** Source *)

(** A [Source] object: its three attributes, as found in the record. *)
Record Source : Type := mkSource {
  name : pyval;
  bibcode : pyval;
  alias : pyval
}.

(** What [Source.aliasToSource] returns: one source, a list of sources, or
    the string ['computed']. *)
Inductive resolved : Type :=
| RSource (s : Source)
| RList (l : list Source)
| RComputed.

Abbreviation sourcemap := (gmap string Source).

(** [Source.__init__]: three lookups, each a [KeyError] when the key is
    missing. *)
Definition Source_init (sourceDict : record) : result Source :=
  n ← getitem sourceDict "name";
  b ← getitem sourceDict "bibcode";
  a ← getitem sourceDict "alias";
  Ok (mkSource n b a).

(** [Source.tojson]: a fresh dictionary of the three attributes. *)
Definition Source_tojson (s : Source) : record :=
  {[ "name" := name s; "bibcode" := bibcode s; "alias" := alias s ]}.

(** [sourcemap[a]] for the [sourcemap] argument as the callers pass it:
    [None] (the default of every constructor) cannot be subscripted. *)
Definition subscript (sm : option sourcemap) (a : string) : result Source :=
  match sm with
  | Some m => getitem m a
  | None => Raise TypeError
  end.

(** [[sourcemap[a] for a in parts]]: left to right, the first failing
    lookup raises. *)
Fixpoint lookup_all (sm : option sourcemap) (parts : list string)
  : result (list Source) :=
  match parts with
  | [] => Ok []
  | a :: rest =>
      s ← subscript sm a;
      l ← lookup_all sm rest;
      Ok (s :: l)
  end.

(** [l.append(x)]. *)
Definition list_append {A : Type} (l : list A) (x : A) : list A :=
  (l ++ [x])%list.

(** ** Floats *)

Definition fadd (a b : float) : float :=
  match a, b with
  | FNum x, FNum y => FNum (x + y)
  | _, _ => FNan
  end.

Definition fsum (l : list float) : float := foldl fadd (FNum 0) l.

(** [np.mean] of a one-dimensional float array: the sum over the number
    of elements, and nan (with a warning, no exception) when there are
    none. *)
Definition np_mean (l : list float) : float :=
  match l with
  | [] => FNan
  | _ :: _ =>
      match fsum l with
      | FNum t => FNum (t / inject_Z (Z.of_nat (length l)))
      | FNan => FNan
      end
  end.

(** ** Attribute access *)

(** An object's own attributes (its [__dict__]). *)
Abbreviation object := (gmap string pyval).

(** What an attribute read gives: a value, or a name found on the class
    ([AMethod]: a method, or a class-side attribute of [dict] such as
    [__doc__], whose value is not modelled). *)
Inductive attrval : Type :=
| AVal (v : pyval)
| AMethod (meth : string).

(** The names, other than [strname], that the class of a [DBAttr] resolves:
    its own two methods and the attributes of [dict] (CPython 3.11). *)
Definition DBAttr_methods : list string :=
  [ "__getitem__"; "tojson";
    "clear"; "copy"; "fromkeys"; "get"; "items"; "keys"; "pop"; "popitem";
    "setdefault"; "update"; "values";
    "__class__"; "__class_getitem__"; "__contains__"; "__delattr__";
    "__delitem__"; "__dict__"; "__dir__"; "__doc__"; "__eq__"; "__format__";
    "__ge__"; "__getattribute__"; "__getstate__"; "__gt__"; "__hash__";
    "__init__"; "__init_subclass__"; "__ior__"; "__iter__"; "__le__";
    "__len__"; "__lt__"; "__module__"; "__ne__"; "__new__"; "__or__";
    "__reduce__"; "__reduce_ex__"; "__repr__"; "__reversed__"; "__ror__";
    "__setattr__"; "__setitem__"; "__sizeof__"; "__str__";
    "__subclasshook__"; "__weakref__" ].

(** The class side of the lookup for a subclass whose only class
    attribute is [strname]. *)
Definition class_attr (strname : string) (k : string) : option attrval :=
  if String.eqb k "strname" then Some (AVal (PStr strname))
  else if existsb (String.eqb k) DBAttr_methods then Some (AMethod k)
  else None.

(** [getattr(self, k)]: the object's own attributes, then the class. *)
Definition getattr (strname : string) (self : object) (k : string)
  : result attrval :=
  match self !! k with
  | Some v => Ok (AVal v)
  | None =>
      match class_attr strname k with
      | Some a => Ok a
      | None => Raise (AttributeError k)
      end
  end.

(** [DBAttr.__getitem__]. *)
Definition DBAttr_getitem (strname : string) (self : object) (items : string)
  : result attrval :=
  getattr strname self items.

(** ** Name *)

Definition Name_strname : string := "name".

(** [Name.__init__]: [aliases] is set only when it is not [None]. *)
Definition Name_init (name aliases : pyval) : object :=
  let self : object := {[ "name" := name ]} in
  match aliases with
  | PNone => self
  | _ => <[ "aliases" := aliases ]> self
  end.

(** [len(v)]. *)
Definition py_len (v : pyval) : result nat :=
  match v with
  | PStr s => Ok (String.length s)
  | PList l => Ok (length l)
  | _ => Raise TypeError
  end.

(** [s[:-1]]. *)
Fixpoint drop_last (s : string) : string :=
  match s with
  | EmptyString => EmptyString
  | String _ EmptyString => EmptyString
  | String c r => String c (drop_last r)
  end.

(** The loop [for s in source: alias += s.alias + ','], from [acc]. *)
Fixpoint join_aliases (acc : string) (l : list Source) : result string :=
  match l with
  | [] => Ok acc
  | s :: rest =>
      match alias s with
      | PStr a => join_aliases (acc ++ a ++ ",") rest
      | _ => Raise TypeError
      end
  end.

(** The photometry object. [time] starts as a list and is a single number
    once a record has given it as a sequence. *)
Inductive timeval : Type :=
| TList (l : list float)
| TMean (f : float).

Record Photometry : Type := mkPhotometry {
  band : pyval;
  time : timeval;
  luminosity : list (option float);
  flux : list (option float);
  mag : list (option float);
  wavelength : list pyval;
  source : list resolved;
  upperlimit : list bool;
  json : list record
}.

Definition reqKeys : gset string := {[ "time"; "luminosity"; "source" ]}.

Definition missing_msg : string :=
  "time, luminosity, and source are required for every photometry point".

Definition is_None (v : pyval) : bool :=
  match v with
  | PNone => true
  | _ => false
  end.

(** The projection kept in [json]: the record without its [None] fields. *)
Definition clean (obs : record) : record :=
  filter (fun kv => is_None kv.2 = false) obs.

(** [isinstance(d['time'], list)]. *)
Definition seq_time (d : record) : bool :=
  match d !! "time" with
  | Some (PList _) => true
  | _ => false
  end.

Definition succeeds {A : Type} (r : result A) : Prop := exists a, r = Ok a.

(** ** DBAttr.tojson *)

(** The objects that keep the inherited [tojson] ([Redshift],
    [DiscoveryDate]): a value and a source. *)
Record Attr : Type := mkAttr {
  attr_value : pyval;
  attr_source : option resolved
}.

(** The alias string of [tojson] (lines 18-26, and again in [RA] and
    [Dec]): the aliases of a list joined by commas, the empty string for no
    source, the alias of a single source; the string ['computed'] has no
    [alias]. *)
Definition source_alias (src : option resolved) : result pyval :=
  match src with
  | Some (RList l) =>
      joined ← join_aliases "" l;
      Ok (PStr (drop_last joined))
  | None => Ok (PStr "")
  | Some (RSource s) => Ok (alias s)
  | Some RComputed => Raise (AttributeError "alias")
  end.

(** [DBAttr.tojson]. *)
Definition DBAttr_tojson (self : Attr) : result record :=
  alias ← source_alias (attr_source self);
  n ← py_len alias;
  if Nat.eqb n 0 then
    Ok {[ "value" := attr_value self ]}
  else
    Ok {[ "value" := attr_value self; "source" := alias ]}.

(** A sourcemap whose keys are the aliases of its sources. *)
Definition keyed_by_alias (m : sourcemap) : Prop :=
  forall k s, m !! k = Some s -> alias s = PStr k.

(** The pieces, each followed by a comma. *)
Fixpoint join_trailing (parts : list string) : string :=
  match parts with
  | [] => EmptyString
  | p :: rest => p ++ "," ++ join_trailing rest
  end.

(** [isinstance(v, list)]. *)
Definition is_list (v : pyval) : bool :=
  match v with
  | PList _ => true
  | _ => false
  end.

Section DBAttr.

(** [float(s)] on a string; [None] is the [ValueError]. *)
Variable float_of_str : string -> option float.
(** [str(v)] on a value that is not a string. *)
Variable str_of : pyval -> string.
(** [np.array(l).astype(float)], flattened. *)
Variable np_astype_float : list pyval -> result (list float).
(** astropy's angles: [coord.Angle(v, unit=u.hourangle)] and
    [to_string(unit=u.hourangle)]. *)
Variable Angle : Type.
Variable Angle_hourangle : pyval -> result Angle.
Variable to_string_hourangle : Angle -> string.

(** [float(v)].  An integer converts to the rational it is: the rounding
    of integers beyond 2^53 and the [OverflowError] of integers beyond the
    float range are not modelled. *)
Definition py_float (v : pyval) : result float :=
  match v with
  | PNone => Raise TypeError
  | PBool b => Ok (FNum (if b then 1 else 0))
  | PInt z => Ok (FNum (inject_Z z))
  | PFloat f => Ok f
  | PStr s =>
      match float_of_str s with
      | Some f => Ok f
      | None => Raise ValueError
      end
  | PList _ => Raise TypeError
  end.

(** [str(v)]. *)
Definition py_str (v : pyval) : string :=
  match v with
  | PStr s => s
  | _ => str_of v
  end.

(** [Source.aliasToSource]. *)
Definition aliasToSource (alias : pyval) (sm : option sourcemap)
  : result resolved :=
  let alias := py_str alias in
  if contains comma alias then
    l ← lookup_all sm (split comma alias);
    Ok (RList l)
  else if contains hyphen alias then
    Ok RComputed
  else
    s ← subscript sm alias;
    Ok (RSource s).

(** ** RA *)

Record RA : Type := mkRA {
  RA_value : Angle;
  RA_valueString : string;
  RA_source : option resolved
}.

(** [RA.__init__]. *)
Definition RA_init (ra : record) (sm : option sourcemap) : result RA :=
  v ← getitem ra "value";
  value ← Angle_hourangle v;
  let valueString := to_string_hourangle value in
  if has_key ra "source" && bool_decide (sm ≠ None) then
    a ← getitem ra "source";
    src ← aliasToSource a sm;
    Ok (mkRA value valueString (Some src))
  else
    Ok (mkRA value valueString None).

(** [RA.tojson]. *)
Definition RA_tojson (self : RA) : result record :=
  alias ←
    match RA_source self with
    | Some (RList l) =>
        joined ← join_aliases "" l;
        Ok (PStr (drop_last joined))
    | None => Ok (PStr "")
    | Some (RSource s) => Ok (alias s)
    | Some RComputed => Raise (AttributeError "alias")
    end;
  n ← py_len alias;
  if Nat.eqb n 0 then
    Ok {[ "value" := PStr (RA_valueString self) ]}
  else
    Ok {[ "value" := PStr (RA_valueString self); "source" := alias ]}.

(** ** Photometry *)

(** Lines 209-212: a sequence overwrites [self.time] with its mean, anything
    else is appended to it; [self.time.append] is looked up before its
    argument is evaluated. *)
Definition store_time (t : timeval) (v : pyval) : result timeval :=
  match v with
  | PList l =>
      fs ← np_astype_float l;
      Ok (TMean (np_mean fs))
  | _ =>
      match t with
      | TList ts =>
          f ← py_float v;
          Ok (TList (list_append ts f))
      | TMean _ => Raise (AttributeError "append")
      end
  end.

(** One turn of the loop of [Photometry.__init__] (lines 205-240). *)
Definition add_point (sm : option sourcemap) (self : Photometry) (d : record)
  : result Photometry :=
  if negb (bool_decide (reqKeys ⊆ dom d)) then Raise (Exception missing_msg)
  else
    tv ← getitem d "time";
    time' ← store_time (time self) tv;
    a ← getitem d "source";
    src ← aliasToSource a sm;
    let source' := list_append (source self) src in
    luminosity' ←
      (if has_key d "luminosity" then
         v ← getitem d "luminosity";
         f ← py_float v;
         Ok (list_append (luminosity self) (Some f))
       else Ok (list_append (luminosity self) None));
    '(luminosity'', flux') ←
      (if has_key d "flux" then
         v ← getitem d "flux";
         f ← py_float v;
         Ok (luminosity', list_append (flux self) (Some f))
       else Ok (list_append luminosity' None, flux self));
    mag' ←
      (if has_key d "magnitude" then
         v ← getitem d "magnitude";
         f ← py_float v;
         Ok (list_append (mag self) (Some f))
       else Ok (list_append (mag self) None));
    wavelength' ←
      (if has_key d "wavelength" then
         v ← getitem d "wavelength";
         Ok (list_append (wavelength self) v)
       else Ok (list_append (wavelength self) PNone));
    let upperlimit' :=
      if has_key d "upperlimit" then list_append (upperlimit self) true
      else list_append (upperlimit self) false in
    Ok (mkPhotometry (band self) time' luminosity'' flux' mag' wavelength'
          source' upperlimit' (json self)).

(** The loop over the records. *)
Fixpoint add_points (sm : option sourcemap) (self : Photometry)
    (photometry : list record) : result Photometry :=
  match photometry with
  | [] => Ok self
  | d :: rest =>
      self' ← add_point sm self d;
      add_points sm self' rest
  end.

(** The object before the loop (lines 194-202); [json] is set after it. *)
Definition Photometry_empty (b : pyval) : Photometry :=
  mkPhotometry b (TList []) [] [] [] [] [] [] [].

(** [Photometry.__init__]. *)
Definition Photometry_init (photometry : list record) (b : pyval)
    (sm : option sourcemap) : result Photometry :=
  self ← add_points sm (Photometry_empty b) photometry;
  Ok (mkPhotometry (band self) (time self) (luminosity self) (flux self)
        (mag self) (wavelength self) (source self) (upperlimit self)
        (clean <$> photometry)).

(** A record the loop can process: the required keys, a time and the
    optional numbers that convert, a source that resolves. *)
Definition converts (d : record) (k : string) : Prop :=
  forall v, d !! k = Some v -> succeeds (py_float v).

Definition time_converts (d : record) : Prop :=
  forall v, d !! "time" = Some v ->
    match v with
    | PList l => succeeds (np_astype_float l)
    | _ => succeeds (py_float v)
    end.

Definition source_resolves (sm : option sourcemap) (d : record) : Prop :=
  forall a, d !! "source" = Some a -> succeeds (aliasToSource a sm).

Definition valid_point (sm : option sourcemap) (d : record) : Prop :=
  reqKeys ⊆ dom d /\ time_converts d /\ source_resolves sm d
  /\ converts d "luminosity" /\ converts d "flux" /\ converts d "magnitude".

(** ** Dec *)

(** [coord.Angle(v, unit=u.deg)] and [to_string(unit=u.deg)]. *)
Variable Angle_deg : pyval -> result Angle.
Variable to_string_deg : Angle -> string.

Record Dec : Type := mkDec {
  Dec_value : Angle;
  Dec_valueString : string;
  Dec_source : option resolved
}.

(** [Dec.__init__]. *)
Definition Dec_init (dec : record) (sm : option sourcemap) : result Dec :=
  v ← getitem dec "value";
  value ← Angle_deg v;
  let valueString := to_string_deg value in
  if has_key dec "source" && bool_decide (sm ≠ None) then
    a ← getitem dec "source";
    src ← aliasToSource a sm;
    Ok (mkDec value valueString (Some src))
  else
    Ok (mkDec value valueString None).

(** [Dec.tojson]. *)
Definition Dec_tojson (self : Dec) : result record :=
  alias ← source_alias (Dec_source self);
  n ← py_len alias;
  if Nat.eqb n 0 then
    Ok {[ "value" := PStr (Dec_valueString self) ]}
  else
    Ok {[ "value" := PStr (Dec_valueString self); "source" := alias ]}.

(** ** Redshift *)

(** [Redshift.__init__]: the source is resolved when the key is there, its
    value has a positive length and a sourcemap is given, the three tests
    being made in this order. *)
Definition Redshift_init (z : record) (sm : option sourcemap) : result Attr :=
  v ← getitem z "value";
  value ← py_float v;
  guard ←
    (if has_key z "source" then
       a ← getitem z "source";
       n ← py_len a;
       Ok ((0 <? n)%nat && bool_decide (sm ≠ None))
     else Ok false);
  if guard : bool then
    a ← getitem z "source";
    src ← aliasToSource a sm;
    Ok (mkAttr (PFloat value) (Some src))
  else
    Ok (mkAttr (PFloat value) None).

(** ** DiscoveryDate *)

(** [DiscoveryDate.__init__]: the value is kept as it is. *)
Definition DiscoveryDate_init (discoveryDate : record) (sm : option sourcemap)
  : result Attr :=
  value ← getitem discoveryDate "value";
  if has_key discoveryDate "source" && bool_decide (sm ≠ None) then
    a ← getitem discoveryDate "source";
    src ← aliasToSource a sm;
    Ok (mkAttr value (Some src))
  else
    Ok (mkAttr value None).

(** ** The entries of the photometry lists *)

(** The magnitude entry of a record: its float, or [None] without the
    key. *)
Definition mag_entry (d : record) (mg : option float) : Prop :=
  match d !! "magnitude" with
  | Some v => exists f, py_float v = Ok f /\ mg = Some f
  | None => mg = None
  end.

(** The source entry of a record: what its alias resolves to. *)
Definition source_entry (sm : option sourcemap) (d : record) (r : resolved)
  : Prop :=
  exists a, d !! "source" = Some a /\ aliasToSource a sm = Ok r.

(** The time entry of a record whose time is not a sequence. *)
Definition time_entry (d : record) (f : float) : Prop :=
  exists v, d !! "time" = Some v /\ py_float v = Ok f.

(** ** Spectra *)

(** [Spectra.__init__]: the list is kept, the band and the sourcemap are
    not read. *)
Definition Spectra_init (spectra : list record) (band : pyval)
    (sm : option sourcemap) : list record :=
  spectra.

End DBAttr.

Arguments mkDec {Angle} _ _ _.
Arguments Dec_value {Angle} _.
Arguments Dec_valueString {Angle} _.
Arguments Dec_source {Angle} _.
Arguments Dec_init _ {Angle} _ _ _ _.
Arguments Dec_tojson {Angle} _.
Arguments mkRA {Angle} _ _ _.
Arguments RA_value {Angle} _.
Arguments RA_valueString {Angle} _.
Arguments RA_source {Angle} _.
Arguments RA_init _ {Angle} _ _ _ _.
Arguments RA_tojson {Angle} _.

(** ** The library calls, for the examples *)

(** [float] on the strings of decimal digits. *)
Definition digit_val (c : Ascii.ascii) : option Z :=
  let n := Ascii.nat_of_ascii c in
  if (48 <=? n)%nat && (n <=? 57)%nat then Some (Z.of_nat (n - 48)) else None.

Fixpoint digits_val (acc : Z) (s : string) : option Z :=
  match s with
  | EmptyString => Some acc
  | String c r =>
      match digit_val c with
      | Some k => digits_val (10 * acc + k)%Z r
      | None => None
      end
  end.

Definition float_of_digits (s : string) : option float :=
  match s with
  | EmptyString => None
  | _ =>
      match digits_val 0%Z s with
      | Some z => Some (FNum (inject_Z z))
      | None => None
      end
  end.

(** [str] on [None], the booleans and the integers. *)
Definition str_of_atom (v : pyval) : string :=
  match v with
  | PNone => "None"
  | PBool true => "True"
  | PBool false => "False"
  | PInt z => pretty z
  | PStr s => s
  | _ => ""
  end.

(** The conversion of a flat list of numbers to floats. *)
Fixpoint floats_of_flat (l : list pyval) : result (list float) :=
  match l with
  | [] => Ok []
  | v :: rest =>
      f ← py_float float_of_digits v;
      fs ← floats_of_flat rest;
      Ok (f :: fs)
  end.

(** Angles kept as the string they were given as. *)
Definition angle_of_str (v : pyval) : result string :=
  match v with
  | PStr s => Ok s
  | _ => Raise TypeError
  end.

(** [c.join(l)]. *)
Fixpoint join (c : Ascii.ascii) (l : list string) : string :=
  match l with
  | [] => EmptyString
  | [s] => s
  | s :: rest => s ++ String c (join c rest)
  end.

(** ** Example data *)

Definition Sa : Source := mkSource (PStr "Alpha et al.") (PStr "2020A") (PStr "a").
Definition Sb : Source := mkSource (PStr "Beta et al.") (PStr "2021B") (PStr "b").

Definition sm_ab : sourcemap := {[ "a" := Sa; "b" := Sb ]}.

(** A point whose time is a sequence, and one whose time is a number. *)
Definition d_seq : record :=
  {[ "time" := PList [PInt 1; PInt 2; PInt 3]; "luminosity" := PInt 5;
     "source" := PStr "a" ]}.
Definition d_scalar : record :=
  {[ "time" := PInt 4; "luminosity" := PInt 6; "source" := PStr "b" ]}.

(** A point with a flux. *)
Definition d_flux : record :=
  {[ "time" := PInt 4; "luminosity" := PInt 6; "source" := PStr "b";
     "flux" := PStr "17" ]}.

(** A point without its luminosity, and one whose source is unknown. *)
Definition d_nolum : record :=
  {[ "time" := PInt 4; "source" := PStr "a" ]}.
Definition d_unknown : record :=
  {[ "time" := PInt 1; "luminosity" := PInt 1; "source" := PStr "zzz" ]}.

(** A point with the optional keys: an upper limit that says [False], a
    wavelength that is [None], a magnitude, two sources. *)
Definition d_upper : record :=
  {[ "time" := PStr "7"; "luminosity" := PInt 2; "source" := PStr "a,b";
     "upperlimit" := PBool false; "wavelength" := PNone;
     "magnitude" := PInt 3 ]}.

(** A coordinate, a redshift and a discovery date with two sources. *)
Definition coord_ab : record :=
  {[ "value" := PStr "12:30:00"; "source" := PStr "b,a" ]}.
Definition z_ab : record :=
  {[ "value" := PStr "2"; "source" := PStr "b,a" ]}.

(** The same with a computed source. *)
Definition coord_uuid : record :=
  {[ "value" := PStr "12:30:00"; "source" := PStr "uuid-1234" ]}.
Definition z_uuid : record :=
  {[ "value" := PStr "2"; "source" := PStr "uuid-1234" ]}.

(** A photometry with one time so far. *)
Definition one_time : Photometry :=
  mkPhotometry (PStr "V") (TList [FNum 9]) [] [] [] [] [] [] [].

(** The constructor with the example library calls. *)
Definition Photometry_ex (photometry : list record) (sm : option sourcemap)
  : result Photometry :=
  Photometry_init float_of_digits str_of_atom floats_of_flat photometry
    (PStr "V") sm.

(** * Properties *)

(** ** str.split *)

Lemma split_nonempty (c : Ascii.ascii) (s : string) : split c s ≠ [].
Proof.
  destruct s as [|x r]; simpl; [done|].
  destruct (Ascii.eqb x c); [done|].
  destruct (split c r); done.
Qed.

(** The pieces, joined again, are the string. *)
Lemma join_split (c : Ascii.ascii) (s : string) : join c (split c s) = s.
Proof.
  induction s as [|x r IH]; simpl; [done|].
  destruct (Ascii.eqb x c) eqn:E.
  - apply Ascii.eqb_eq in E as ->.
    pose proof (split_nonempty c r) as Hne.
    destruct (split c r) as [|h t]; [done|].
    simpl in *. by rewrite IH.
  - pose proof (split_nonempty c r) as Hne.
    destruct (split c r) as [|h t]; [done|].
    destruct t as [|h' t]; simpl in *; by rewrite <- IH.
Qed.

(** No piece holds the separator. *)
Lemma split_no_sep (c : Ascii.ascii) (s : string) :
  Forall (fun p => contains c p = false) (split c s).
Proof.
  induction s as [|x r IH]; simpl.
  - by constructor.
  - destruct (Ascii.eqb x c) eqn:E.
    + by constructor.
    + destruct (split c r) as [|h t]; simpl.
      * constructor; [|done]. simpl. by rewrite E.
      * inversion IH; subst. constructor; [|done]. simpl. by rewrite E.
Qed.

(** ** Source.aliasToSource *)

Lemma lookup_all_Some (m : sourcemap) (parts : list string) :
  (forall p, p ∈ parts -> is_Some (m !! p)) ->
  exists l, lookup_all (Some m) parts = Ok l
            /\ Forall2 (fun p s => m !! p = Some s) parts l.
Proof.
  induction parts as [|p rest IH]; intros H.
  - exists []. split; [done|constructor].
  - destruct (H p) as [s Hs]; [left|].
    destruct IH as [l [Hl HF]].
    { intros q Hq. apply H. by right. }
    exists (s :: l). split.
    + simpl. unfold getitem. rewrite Hs. simpl. by rewrite Hl.
    + by constructor.
Qed.

(** C4: an alias with a comma whose parts are all keys of the sourcemap
    resolves to the list of their sources, one per part and in the order of
    the parts, a repeated part giving its source again; and
    [aliasToSource("a,b", {"a": Sa, "b": Sb})] is [[Sa, Sb]]. *)
Theorem aliasToSource_comma (str_of : pyval -> string) :
  (forall (a : string) (m : sourcemap),
      contains comma a = true ->
      (forall p, p ∈ split comma a -> is_Some (m !! p)) ->
      exists l, aliasToSource str_of (PStr a) (Some m) = Ok (RList l)
                /\ Forall2 (fun p s => m !! p = Some s) (split comma a) l)
  /\ (forall x y : Source,
        aliasToSource str_of (PStr "a,b") (Some {[ "a" := x; "b" := y ]})
        = Ok (RList [x; y])).
Proof.
  split.
  - intros a m Hc Hk. unfold aliasToSource. simpl. rewrite Hc.
    destruct (lookup_all_Some m (split comma a) Hk) as [l [Hl HF]].
    exists l. by rewrite Hl.
  - intros x y. unfold aliasToSource. simpl.
    unfold getitem. by simplify_map_eq.
Qed.

Lemma aliasToSource_comma_witness :
  exists l, aliasToSource str_of_atom (PStr "b,a,b") (Some sm_ab) = Ok (RList l)
            /\ Forall2 (fun p s => sm_ab !! p = Some s) (split comma "b,a,b") l.
Proof.
  apply (proj1 (aliasToSource_comma str_of_atom) "b,a,b" sm_ab).
  - reflexivity.
  - intros p Hp. vm_compute in Hp.
    repeat (apply elem_of_cons in Hp as [-> | Hp]; [by eexists|]).
    by apply elem_of_nil in Hp.
Defined.

(** C5: an alias without a comma and with a hyphen resolves to the string
    ['computed'], whatever the sourcemap is: absent, empty or not. *)
Theorem aliasToSource_hyphen (str_of : pyval -> string) (a : string)
    (sm : option sourcemap) :
  contains comma a = false ->
  contains hyphen a = true ->
  aliasToSource str_of (PStr a) sm = Ok RComputed.
Proof.
  intros Hc Hh. unfold aliasToSource. simpl. by rewrite Hc, Hh.
Qed.

Lemma aliasToSource_hyphen_witness :
  aliasToSource str_of_atom (PStr "uuid-1234") (Some ∅) = Ok RComputed.
Proof.
  apply aliasToSource_hyphen; reflexivity.
Defined.

(** C6: an alias with neither a comma nor a hyphen that is not a key of the
    sourcemap raises the [KeyError] of that alias. *)
Theorem aliasToSource_missing (str_of : pyval -> string) (a : string)
    (m : sourcemap) :
  contains comma a = false ->
  contains hyphen a = false ->
  m !! a = None ->
  aliasToSource str_of (PStr a) (Some m) = Raise (KeyError a).
Proof.
  intros Hc Hh Hm. unfold aliasToSource. simpl. rewrite Hc, Hh.
  unfold getitem. by rewrite Hm.
Qed.

Lemma aliasToSource_missing_witness :
  aliasToSource str_of_atom (PStr "missing") (Some ∅) = Raise (KeyError "missing").
Proof.
  apply aliasToSource_missing; reflexivity.
Defined.

(** ** Source *)

(** C7: for a record with the keys [name], [bibcode] and [alias], the
    source built from it has these three values, its [tojson] holds them
    under the same keys, and the source built from that dictionary is the
    same source. *)
Theorem Source_tojson_roundtrip (x : record) (n b a : pyval) :
  x !! "name" = Some n ->
  x !! "bibcode" = Some b ->
  x !! "alias" = Some a ->
  exists s,
    Source_init x = Ok s
    /\ name s = n /\ bibcode s = b /\ alias s = a
    /\ Source_tojson s !! "name" = Some n
    /\ Source_tojson s !! "bibcode" = Some b
    /\ Source_tojson s !! "alias" = Some a
    /\ Source_init (Source_tojson s) = Ok s.
Proof.
  intros Hn Hb Ha. exists (mkSource n b a).
  unfold Source_init, Source_tojson, getitem. rewrite Hn, Hb, Ha. simpl.
  repeat split; by simplify_map_eq.
Qed.

Lemma Source_tojson_roundtrip_witness :
  exists s,
    Source_init (<[ "extra" := PInt 3 ]> (Source_tojson Sa)) = Ok s
    /\ name s = name Sa /\ bibcode s = bibcode Sa /\ alias s = alias Sa
    /\ Source_tojson s !! "name" = Some (name Sa)
    /\ Source_tojson s !! "bibcode" = Some (bibcode Sa)
    /\ Source_tojson s !! "alias" = Some (alias Sa)
    /\ Source_init (Source_tojson s) = Ok s.
Proof.
  apply Source_tojson_roundtrip; reflexivity.
Defined.

(** ** Name *)

(** C10: a name built without aliases has the one attribute [name]; it has
    no [aliases] attribute, and reading it, by [getattr] or by
    [__getitem__], raises an [AttributeError]. *)
Theorem Name_without_aliases (n : pyval) :
  Name_init n PNone = {[ "name" := n ]}
  /\ dom (Name_init n PNone) = {[ "name" ]}
  /\ Name_init n PNone !! "aliases" = None
  /\ getattr Name_strname (Name_init n PNone) "name" = Ok (AVal n)
  /\ getattr Name_strname (Name_init n PNone) "aliases"
     = Raise (AttributeError "aliases")
  /\ DBAttr_getitem Name_strname (Name_init n PNone) "aliases"
     = Raise (AttributeError "aliases").
Proof.
  repeat split; reflexivity.
Qed.

(** ** RA *)

Section RA_facts.

Variable str_of : pyval -> string.
Variable Angle : Type.
Variable Angle_hourangle : pyval -> result Angle.
Variable to_string_hourangle : Angle -> string.

(** C8: a record whose [value] parses and which has a [source], built
    without a sourcemap, gives an object whose source is [None]; no error
    is raised, and [tojson] is the dictionary of the one key [value]. *)
Theorem RA_source_without_sourcemap (ra : record) (v src : pyval) (a : Angle) :
  ra !! "value" = Some v ->
  Angle_hourangle v = Ok a ->
  ra !! "source" = Some src ->
  exists self,
    RA_init str_of Angle_hourangle to_string_hourangle ra None = Ok self
    /\ RA_source self = None
    /\ RA_tojson self = Ok {[ "value" := PStr (to_string_hourangle a) ]}
    /\ forall j, RA_tojson self = Ok j ->
                 dom j = {[ "value" ]} /\ j !! "source" = None.
Proof.
  intros Hv Ha Hs.
  exists (mkRA a (to_string_hourangle a) None).
  assert (Hj : RA_tojson (mkRA a (to_string_hourangle a) None)
               = Ok {[ "value" := PStr (to_string_hourangle a) ]}) by reflexivity.
  split; [|split; [|split]].
  - unfold RA_init, getitem, has_key. rewrite Hv, Hs. simpl. by rewrite Ha.
  - reflexivity.
  - exact Hj.
  - intros j Hjs.
    assert (j = {[ "value" := PStr (to_string_hourangle a) ]}) as ->
      by congruence.
    split; [by rewrite dom_singleton_L | by simplify_map_eq].
Qed.

End RA_facts.

Lemma RA_source_without_sourcemap_witness :
  exists self,
    RA_init str_of_atom angle_of_str id
      {[ "value" := PStr "12:30:00"; "source" := PStr "a" ]} None = Ok self
    /\ RA_source self = None
    /\ RA_tojson self = Ok {[ "value" := PStr "12:30:00" ]}
    /\ forall j, RA_tojson self = Ok j ->
                 dom j = {[ "value" ]} /\ j !! "source" = None.
Proof.
  apply (RA_source_without_sourcemap str_of_atom string angle_of_str id
           {[ "value" := PStr "12:30:00"; "source" := PStr "a" ]}
           (PStr "12:30:00") (PStr "a") "12:30:00"); reflexivity.
Defined.

(** ** Photometry *)

Lemma reqKeys_present (d : record) :
  reqKeys ⊆ dom d ->
  is_Some (d !! "time") /\ is_Some (d !! "luminosity") /\ is_Some (d !! "source").
Proof.
  intros H. rewrite <- !elem_of_dom. unfold reqKeys in H. set_solver.
Qed.

Lemma fsum_FNum (acc : Q) (qs : list Q) :
  foldl fadd (FNum acc) (FNum <$> qs) = FNum (foldl Qplus acc qs).
Proof.
  revert acc. induction qs as [|q qs IH]; intros acc; simpl; [done|].
  apply IH.
Qed.

(** On numbers [np_mean] is the sum over the count. *)
Lemma np_mean_FNum (q : Q) (qs : list Q) :
  np_mean (FNum <$> q :: qs)
  = FNum (foldl Qplus 0%Q (q :: qs) / inject_Z (Z.of_nat (length (q :: qs)))).
Proof.
  unfold np_mean, fsum. rewrite fmap_cons, <- fmap_cons, fsum_FNum.
  rewrite fmap_cons. by rewrite length_cons, length_fmap, length_cons.
Qed.

Section Photometry_facts.

Variable float_of_str : string -> option float.
Variable str_of : pyval -> string.
Variable np_astype_float : list pyval -> result (list float).

Local Abbreviation to_float := (py_float float_of_str).
Local Abbreviation set_time := (store_time float_of_str np_astype_float).
Local Abbreviation step := (add_point float_of_str str_of np_astype_float).
Local Abbreviation loop := (add_points float_of_str str_of np_astype_float).
Local Abbreviation init := (Photometry_init float_of_str str_of np_astype_float).

(** What a successful turn of the loop did to each list. *)
Lemma add_point_Ok (sm : option sourcemap) (self self' : Photometry)
    (d : record) :
  step sm self d = Ok self' ->
  reqKeys ⊆ dom d
  /\ (exists tv, d !! "time" = Some tv
                 /\ set_time (time self) tv = Ok (time self'))
  /\ (exists lv lf, d !! "luminosity" = Some lv /\ to_float lv = Ok lf
        /\ match d !! "flux" with
           | Some fv =>
               exists ff, to_float fv = Ok ff
                 /\ luminosity self' = (luminosity self ++ [Some lf])%list
                 /\ flux self' = (flux self ++ [Some ff])%list
           | None =>
               luminosity self' = (luminosity self ++ [Some lf; None])%list
               /\ flux self' = flux self
           end).
Proof.
  unfold add_point. intros H.
  destruct (bool_decide (reqKeys ⊆ dom d)) eqn:Hreq; simpl in H;
    [|discriminate].
  apply bool_decide_eq_true in Hreq.
  destruct (reqKeys_present d Hreq) as [[tv Ht] [[lv Hl] [sv Hs]]].
  split; [done|].
  unfold getitem, has_key in H. rewrite Ht, Hl, Hs in H. simpl in H.
  destruct (set_time (time self) tv) as [t'|] eqn:Et; simpl in H;
    [|discriminate].
  destruct (aliasToSource str_of sv sm) as [src|]; simpl in H; [|discriminate].
  destruct (to_float lv) as [lf|] eqn:Elf; simpl in H; [|discriminate].
  split; [exists tv; split; [done|]|exists lv, lf; split; [done|split; [done|]]];
    destruct (d !! "flux") as [fv|]; simpl in H;
    try (destruct (to_float fv) as [ff|] eqn:Eff; simpl in H; [|discriminate]);
    destruct (d !! "magnitude") as [mv|]; simpl in H;
    try (destruct (to_float mv) as [mf|]; simpl in H; [|discriminate]);
    destruct (d !! "wavelength") as [wv|]; simpl in H;
    injection H as <-; simpl; try done;
    try (by exists ff);
    unfold list_append; by rewrite <- app_assoc.
Qed.

(** A record without all the required keys raises the module's exception. *)
Lemma add_point_missing (sm : option sourcemap) (self : Photometry)
    (d : record) :
  ¬ reqKeys ⊆ dom d -> step sm self d = Raise (Exception missing_msg).
Proof.
  intros H. unfold add_point. by rewrite bool_decide_eq_false_2.
Qed.

Lemma add_points_app (sm : option sourcemap) (self : Photometry)
    (pre post : list record) :
  loop sm self (pre ++ post)
  = (self' ← loop sm self pre; loop sm self' post).
Proof.
  revert self. induction pre as [|d pre IH]; intros self; simpl; [done|].
  destruct (step sm self d) as [s|e]; simpl; [apply IH|done].
Qed.

Lemma add_points_missing (sm : option sourcemap) (self : Photometry)
    (photometry : list record) :
  (exists d, d ∈ photometry /\ ¬ reqKeys ⊆ dom d) ->
  exists e, loop sm self photometry = Raise e.
Proof.
  revert self. induction photometry as [|d rest IH]; intros self [x [Hin Hx]].
  - by apply elem_of_nil in Hin.
  - simpl. destruct (decide (reqKeys ⊆ dom d)) as [Hd|Hd].
    + destruct (step sm self d) as [s|e]; simpl; [|by exists e].
      apply IH. exists x. split; [|done].
      apply elem_of_cons in Hin as [->|Hin]; [by destruct Hx|done].
    + rewrite add_point_missing by done. by eexists.
Qed.

(** Once the time field is a number, a record whose time is not a sequence
    raises: the number has no [append]. *)
Lemma add_point_after_mean (sm : option sourcemap) (self : Photometry)
    (d : record) (m : float) (v : pyval) :
  reqKeys ⊆ dom d ->
  time self = TMean m ->
  d !! "time" = Some v ->
  (forall l, v ≠ PList l) ->
  step sm self d = Raise (AttributeError "append").
Proof.
  intros Hreq Hm Hv Hnl. unfold add_point.
  rewrite bool_decide_eq_true_2 by done. simpl.
  unfold getitem. rewrite Hv. simpl. rewrite Hm.
  destruct v as [| | | | |l]; try done. by destruct (Hnl l).
Qed.

(** A valid record is processed when its time is a sequence or the time
    field is still a list; the time field is then a number or a list. *)
Lemma add_point_valid (sm : option sourcemap) (self : Photometry) (d : record) :
  valid_point float_of_str str_of np_astype_float sm d ->
  (seq_time d = true \/ exists ts, time self = TList ts) ->
  exists self', step sm self d = Ok self'
    /\ if seq_time d then exists m, time self' = TMean m
       else exists ts, time self' = TList ts.
Proof.
  intros (Hreq & Ht & Hs & Hl & Hf & Hm) Hshape. unfold add_point.
  rewrite bool_decide_eq_true_2 by done. simpl.
  destruct (reqKeys_present d Hreq) as [[tv Htv] [[lv Hlv] [sv Hsv]]].
  unfold getitem, has_key, seq_time in *. rewrite Htv, Hlv, Hsv in *. simpl.
  destruct (Hs sv Hsv) as [src ->].
  destruct (Hl lv Hlv) as [lf ->]. simpl.
  specialize (Ht tv Htv).
  assert (exists t', set_time (time self) tv = Ok t'
            /\ match tv with
               | PList _ => exists m, t' = TMean m
               | _ => exists ts, t' = TList ts
               end) as [t' [-> Ht']].
  { destruct tv as [| | | | |l].
    6: { destruct Ht as [fs Hfs]. simpl. rewrite Hfs. simpl.
         eexists. split; [reflexivity|by eexists]. }
    all: destruct Hshape as [?|[ts Hts]]; [done|]; destruct Ht as [g Hg];
      unfold store_time; rewrite Hts, Hg; simpl;
      eexists; (split; [reflexivity|by eexists]). }
  simpl.
  destruct (d !! "flux") as [fv|] eqn:Efv; simpl;
    [destruct (Hf fv Efv) as [ff ->]; simpl|];
    (destruct (d !! "magnitude") as [mv|] eqn:Emv; simpl;
      [destruct (Hm mv Emv) as [mf ->]; simpl|]);
    destruct (d !! "wavelength") as [wv|]; simpl;
    (eexists; split; [reflexivity|]); simpl;
    by destruct tv.
Qed.



(** Valid records whose times are all sequences are processed from any
    state. *)
Lemma add_points_sequences (sm : option sourcemap) (self : Photometry)
    (post : list record) :
  Forall (valid_point float_of_str str_of np_astype_float sm) post ->
  Forall (fun d => seq_time d = true) post ->
  succeeds (loop sm self post).
Proof.
  revert self. induction post as [|d post IH]; intros self Hv Hs; simpl.
  - by exists self.
  - inversion Hv; subst. inversion Hs; subst.
    destruct (add_point_valid sm self d) as [self' [-> _]]; [done|by left|].
    simpl. by apply IH.
Qed.

(** X23: the orders the constructor accepts: valid records, those whose
    time is a number first, those whose time is a sequence after them. *)
Lemma scalars_then_sequences_succeed (sm : option sourcemap) (b : pyval)
    (pre post : list record) :
  Forall (valid_point float_of_str str_of np_astype_float sm) (pre ++ post) ->
  Forall (fun d => seq_time d = false) pre ->
  Forall (fun d => seq_time d = true) post ->
  succeeds (init (pre ++ post) b sm).
Proof.
  intros Hv Hpre Hpost. apply Forall_app in Hv as [Hv1 Hv2].
  assert (forall self, (exists ts, time self = TList ts) ->
                       succeeds (loop sm self (pre ++ post))) as Hloop.
  { induction pre as [|d pre IH]; intros self Hts; simpl.
    - by apply add_points_sequences.
    - inversion Hv1; subst. inversion Hpre; subst.
      destruct (add_point_valid sm self d) as [self' [-> Hshape]];
        [done|by right|].
      simpl. apply IH; try done. by rewrite H3 in Hshape. }
  destruct (Hloop (Photometry_empty b)) as [p Hp]; [by exists []|].
  unfold Photometry_init. rewrite Hp. simpl. by eexists.
Qed.

(** X24: two records, the time of the first a sequence and the time of
    the second not, are refused in this order, with an [AttributeError],
    when the first is valid and the second has the required keys. *)
Lemma sequence_then_scalar_refused (sm : option sourcemap) (b : pyval)
    (d1 d2 : record) :
  valid_point float_of_str str_of np_astype_float sm d1 ->
  reqKeys ⊆ dom d2 ->
  seq_time d1 = true ->
  seq_time d2 = false ->
  init [d1; d2] b sm = Raise (AttributeError "append").
Proof.
  intros Hv1 Hreq2 Hs1 Hs2. unfold Photometry_init. simpl.
  destruct (add_point_valid sm (Photometry_empty b) d1) as [self' [-> Hm]];
    [done|by left|].
  rewrite Hs1 in Hm. destruct Hm as [m Hm]. simpl.
  destruct (reqKeys_present d2 Hreq2) as [[tv Htv] _].
  rewrite (add_point_after_mean sm self' d2 m tv); try done.
  intros l ->. unfold seq_time in Hs2. by rewrite Htv in Hs2.
Qed.

(** C9, as the code has it: a collection with a record that lacks a
    required key is always refused, a record without [luminosity] being such
    a record; the exception is the module's own, naming the three keys, when
    the records before that record were processed, and it is the exception
    of an earlier record when one of them raised. *)
Theorem missing_key_fails (sm : option sourcemap) (b : pyval)
    (photometry : list record) :
  (exists d, d ∈ photometry /\ ¬ reqKeys ⊆ dom d) ->
  (exists e, init photometry b sm = Raise e)
  /\ (forall pre d post self,
        photometry = (pre ++ d :: post)%list ->
        ¬ reqKeys ⊆ dom d ->
        loop sm (Photometry_empty b) pre = Ok self ->
        init photometry b sm = Raise (Exception missing_msg))
  /\ (forall pre post e,
        photometry = (pre ++ post)%list ->
        loop sm (Photometry_empty b) pre = Raise e ->
        init photometry b sm = Raise e)
  /\ (forall d : record, d !! "luminosity" = None -> ¬ reqKeys ⊆ dom d).
Proof.
  intros Hex. split; [|split; [|split]].
  - destruct (add_points_missing sm (Photometry_empty b) photometry Hex)
      as [e He].
    exists e. unfold Photometry_init. by rewrite He.
  - intros pre d post self -> Hd Hpre. unfold Photometry_init.
    rewrite add_points_app, Hpre. simpl.
    by rewrite add_point_missing.
  - intros pre post e -> Hpre. unfold Photometry_init.
    by rewrite add_points_app, Hpre.
  - intros d Hl Hsub. apply reqKeys_present in Hsub as [_ [[x Hx] _]].
    congruence.
Qed.

End Photometry_facts.

Ltac valid_example :=
  refine (conj _ (conj _ (conj _ (conj _ (conj _ _)))));
  [ match goal with |- ?P => apply (bool_decide_eq_true_1 P); reflexivity end
  | intros v H; vm_compute in H;
    first [discriminate H | injection H as <-; eexists; reflexivity] .. ].

Lemma d_scalar_valid :
  valid_point float_of_digits str_of_atom floats_of_flat (Some sm_ab) d_scalar.
Proof. valid_example. Qed.


Lemma d_seq_valid :
  valid_point float_of_digits str_of_atom floats_of_flat (Some sm_ab) d_seq.
Proof. valid_example. Qed.


(** The two records evaluated: the lists after each. *)
Example flux_absent_and_present_evaluated :
  (exists p,
     add_point float_of_digits str_of_atom floats_of_flat (Some sm_ab)
       (Photometry_empty PNone) d_scalar = Ok p
     /\ flux p = [] /\ luminosity p = [Some (FNum 6); None])
  /\ (exists p,
        add_point float_of_digits str_of_atom floats_of_flat (Some sm_ab)
          (Photometry_empty PNone) d_flux = Ok p
        /\ flux p = [Some (FNum 17)] /\ luminosity p = [Some (FNum 6)]).
Proof.
  split; eexists; (split; [reflexivity|]); split; reflexivity.
Qed.


(** The two records evaluated: the time field after each. *)
Example time_overwritten_and_appended_evaluated :
  (exists p,
     add_point float_of_digits str_of_atom floats_of_flat (Some sm_ab)
       one_time d_seq = Ok p
     /\ time p = TMean (FNum (6 # 3)))
  /\ (exists p,
        add_point float_of_digits str_of_atom floats_of_flat (Some sm_ab)
          one_time d_scalar = Ok p
        /\ time p = TList [FNum 9; FNum 4]).
Proof.
  split; eexists; (split; reflexivity).
Qed.


Lemma missing_key_fails_witness :
  exists e, Photometry_ex [d_scalar; d_nolum] (Some sm_ab) = Raise e.
Proof.
  apply (missing_key_fails float_of_digits str_of_atom floats_of_flat
           (Some sm_ab) (PStr "V") [d_scalar; d_nolum]).
  exists d_nolum. split.
  - apply elem_of_cons. right. apply elem_of_cons. by left.
  - apply (bool_decide_eq_false_1 (reqKeys ⊆ dom d_nolum)). reflexivity.
Defined.

(** C9, as stated, fails: the first record names a source the sourcemap
    does not have, the second lacks its luminosity, and the exception is the
    [KeyError] of the first. *)
Lemma missing_key_other_exception :
  (exists d, d ∈ [d_unknown; d_nolum] /\ ¬ reqKeys ⊆ dom d)
  /\ Photometry_ex [d_unknown; d_nolum] (Some sm_ab) = Raise (KeyError "zzz")
  /\ Photometry_ex [d_unknown; d_nolum] (Some sm_ab)
     ≠ Raise (Exception missing_msg).
Proof.
  split; [|split].
  - exists d_nolum. split.
    + apply elem_of_cons. right. apply elem_of_cons. by left.
    + apply (bool_decide_eq_false_1 (reqKeys ⊆ dom d_nolum)). reflexivity.
  - reflexivity.
  - discriminate.
Qed.

(** C1, on the code: a record whose time is a sequence followed by one
    whose time is a number makes the constructor raise, the time field
    being a number when [append] is asked of it; in the other order the
    same two records are accepted. *)
Theorem sequence_then_scalar_raises :
  Photometry_ex [d_seq; d_scalar] (Some sm_ab)
  = Raise (AttributeError "append")
  /\ exists p, Photometry_ex [d_scalar; d_seq] (Some sm_ab) = Ok p
               /\ time p = TMean (FNum (6 # 3)).
Proof.
  split; [reflexivity|]. eexists. split; reflexivity.
Qed.

(** * Further properties *)

(** ** Strings *)

Lemma str_app_assoc (s t u : string) : (s ++ t) ++ u = s ++ t ++ u.
Proof.
  induction s as [|c s IH]; [done|].
  change (String c ((s ++ t) ++ u) = String c (s ++ t ++ u)). by f_equal.
Qed.

Lemma str_app_nil_r (s : string) : s ++ "" = s.
Proof.
  induction s as [|c s IH]; [done|].
  change (String c (s ++ "") = String c s). by f_equal.
Qed.

Lemma drop_last_app (s t : string) :
  t ≠ "" -> drop_last (s ++ t) = s ++ drop_last t.
Proof.
  intros Ht. induction s as [|c s IH]; [done|].
  change (String c s ++ t) with (String c (s ++ t)).
  change (String c s ++ drop_last t) with (String c (s ++ drop_last t)).
  rewrite <- IH. simpl.
  destruct (s ++ t) eqn:E; [|done].
  destruct s; simpl in E; [done|discriminate].
Qed.

Lemma split_without (c : Ascii.ascii) (s : string) :
  contains c s = false -> split c s = [s].
Proof.
  induction s as [|x r IH]; simpl; [done|].
  destruct (Ascii.eqb x c); [discriminate|].
  intros H. by rewrite IH.
Qed.

Lemma join_trailing_nonempty (parts : list string) :
  parts ≠ [] -> join_trailing parts ≠ "".
Proof.
  destruct parts as [|p rest]; [done|]. intros _. simpl.
  destruct p; simpl; discriminate.
Qed.

(** Without their last comma, the pieces followed by commas are the pieces
    joined by commas. *)
Lemma drop_last_join_trailing (parts : list string) :
  drop_last (join_trailing parts) = join comma parts.
Proof.
  induction parts as [|p rest IH]; [done|].
  destruct rest as [|q rest].
  - simpl. rewrite drop_last_app by done. simpl. apply str_app_nil_r.
  - change (join_trailing (p :: q :: rest))
      with (p ++ "," ++ join_trailing (q :: rest)).
    rewrite drop_last_app.
    2: { simpl. discriminate. }
    change ("," ++ join_trailing (q :: rest))
      with (String comma (join_trailing (q :: rest))).
    assert (Hne : join_trailing (q :: rest) ≠ "")
      by (by apply join_trailing_nonempty).
    change (join comma (p :: q :: rest))
      with (p ++ String comma (join comma (q :: rest))).
    rewrite <- IH. f_equal.
    destruct (join_trailing (q :: rest)) eqn:E; [done|]. done.
Qed.

Lemma contains_length (c : Ascii.ascii) (s : string) :
  contains c s = true -> String.length s ≠ 0.
Proof.
  by destruct s.
Qed.

(** ** The alias string of tojson *)

(** From a sourcemap keyed by alias, the loop of [tojson] over the sources
    looked up for [parts] builds the parts, each followed by a comma. *)
Lemma join_aliases_lookup_all (m : sourcemap) (parts : list string)
    (l : list Source) (acc : string) :
  keyed_by_alias m ->
  lookup_all (Some m) parts = Ok l ->
  join_aliases acc l = Ok (acc ++ join_trailing parts).
Proof.
  intros Hk. revert l acc.
  induction parts as [|p rest IH]; intros l acc H; simpl in H.
  - injection H as <-. simpl. by rewrite str_app_nil_r.
  - unfold getitem in H. destruct (m !! p) as [s|] eqn:Hp; [|discriminate].
    simpl in H.
    destruct (lookup_all (Some m) rest) as [l'|] eqn:Hl; [|discriminate].
    simpl in H. injection H as <-. simpl.
    rewrite (Hk p s Hp). rewrite (IH l' _ eq_refl).
    f_equal. rewrite (str_app_assoc acc (p ++ ",")).
    f_equal. apply (str_app_assoc p "," (join_trailing rest)).
Qed.

Section Alias_facts.

Variable str_of : pyval -> string.

(** What [tojson] makes of a resolved alias is the alias: for a sourcemap
    keyed by alias and an alias that is a list of keys or one key without a
    hyphen. *)
Lemma source_alias_resolved (m : sourcemap) (a : string) (r : resolved) :
  keyed_by_alias m ->
  contains comma a = true \/ contains hyphen a = false ->
  aliasToSource str_of (PStr a) (Some m) = Ok r ->
  source_alias (Some r) = Ok (PStr a).
Proof.
  intros Hk Hshape H. unfold aliasToSource in H. simpl in H.
  destruct (contains comma a) eqn:Hc.
  - destruct (lookup_all (Some m) (split comma a)) as [l|] eqn:Hl;
      [|discriminate].
    simpl in H. injection H as <-. unfold source_alias.
    rewrite (join_aliases_lookup_all m (split comma a) l "" Hk Hl).
    change (Ok (PStr (drop_last (join_trailing (split comma a))))
            = Ok (PStr a)).
    by rewrite drop_last_join_trailing, join_split.
  - destruct Hshape as [?|Hh]; [done|]. rewrite Hh in H.
    unfold getitem in H. destruct (m !! a) as [s|] eqn:Ha; [|discriminate].
    simpl in H. injection H as <-. simpl. by rewrite (Hk a s Ha).
Qed.

(** An alias with a hyphen and no comma resolves, and [tojson] then asks
    the string ['computed'] for its [alias]. *)
Lemma source_alias_computed (sm : option sourcemap) (a : string) :
  contains comma a = false ->
  contains hyphen a = true ->
  exists r, aliasToSource str_of (PStr a) sm = Ok r
            /\ source_alias (Some r) = Raise (AttributeError "alias").
Proof.
  intros Hc Hh. exists RComputed. split; [|done].
  unfold aliasToSource. simpl. by rewrite Hc, Hh.
Qed.

End Alias_facts.

Lemma aliasToSource_resolves (str_of : pyval -> string) (m : sourcemap)
    (a : string) :
  contains comma a = true \/ contains hyphen a = false ->
  (forall p, p ∈ split comma a -> is_Some (m !! p)) ->
  exists r, aliasToSource str_of (PStr a) (Some m) = Ok r.
Proof.
  intros Hshape Hparts. unfold aliasToSource. simpl.
  destruct (contains comma a) eqn:Hc.
  - destruct (lookup_all_Some m (split comma a) Hparts) as [l [-> _]].
    by eexists.
  - destruct Hshape as [? | ->]; [done|].
    rewrite split_without in Hparts by done.
    destruct (Hparts a) as [s Hs]; [by left|].
    unfold getitem. rewrite Hs. by eexists.
Qed.

Lemma nonempty_length (a : string) : a ≠ "" -> Nat.eqb (String.length a) 0 = false.
Proof.
  by destruct a.
Qed.

(** [DBAttr.tojson] of a value whose source gives a non-empty alias. *)
Lemma DBAttr_tojson_alias (v : pyval) (r : resolved) (a : string) :
  source_alias (Some r) = Ok (PStr a) ->
  a ≠ "" ->
  DBAttr_tojson (mkAttr v (Some r)) = Ok {[ "value" := v; "source" := PStr a ]}.
Proof.
  intros Hr Ha. unfold DBAttr_tojson. simpl attr_source. rewrite Hr. simpl.
  by rewrite nonempty_length.
Qed.

(** ** aliasToSource: a part that is not a key *)

Lemma lookup_all_missing (m : sourcemap) (pre post : list string) (p : string) :
  (forall q, q ∈ pre -> is_Some (m !! q)) ->
  m !! p = None ->
  lookup_all (Some m) (pre ++ p :: post) = Raise (KeyError p).
Proof.
  intros Hpre Hp. induction pre as [|q pre IH]; simpl.
  - unfold getitem. by rewrite Hp.
  - destruct (Hpre q) as [s Hs]; [by left|].
    unfold getitem at 1. rewrite Hs. simpl.
    rewrite IH; [done|]. intros q' Hq'. apply Hpre. by right.
Qed.

(** X1: when a part of a comma-separated alias is not a key of the sourcemap
    and the parts before it are, the [KeyError] is the one of that part. *)
Theorem aliasToSource_first_missing_part (str_of : pyval -> string)
    (m : sourcemap) (a : string) (pre post : list string) (p : string) :
  contains comma a = true ->
  split comma a = (pre ++ p :: post)%list ->
  (forall q, q ∈ pre -> is_Some (m !! q)) ->
  m !! p = None ->
  aliasToSource str_of (PStr a) (Some m) = Raise (KeyError p).
Proof.
  intros Hc Hsplit Hpre Hp. unfold aliasToSource. simpl. rewrite Hc, Hsplit.
  by rewrite lookup_all_missing.
Qed.

Lemma aliasToSource_first_missing_part_witness :
  aliasToSource str_of_atom (PStr "a,c,b,d") (Some sm_ab) = Raise (KeyError "c").
Proof.
  apply (aliasToSource_first_missing_part str_of_atom sm_ab "a,c,b,d"
           ["a"] ["b"; "d"] "c").
  - reflexivity.
  - reflexivity.
  - intros q Hq. apply list_elem_of_singleton in Hq as ->. by eexists.
  - reflexivity.
Defined.

(** ** RA and Dec: what tojson gives back *)

Section Coordinate_facts.

Variable str_of : pyval -> string.
Variable Angle : Type.
Variable Angle_hourangle : pyval -> result Angle.
Variable to_string_hourangle : Angle -> string.
Variable Angle_deg : pyval -> result Angle.
Variable to_string_deg : Angle -> string.

(** X2: with a sourcemap keyed by alias, an [RA] whose source is a key
    without a hyphen, or a comma-separated list of keys, serialises to its
    canonical string and to the alias string it was given: the same parts
    in the same order, and no trailing comma. *)
Theorem RA_tojson_returns_alias (m : sourcemap) (ra : record) (v : pyval)
    (ang : Angle) (a : string) :
  keyed_by_alias m ->
  ra !! "value" = Some v ->
  Angle_hourangle v = Ok ang ->
  ra !! "source" = Some (PStr a) ->
  a ≠ "" ->
  contains comma a = true \/ contains hyphen a = false ->
  (forall p, p ∈ split comma a -> is_Some (m !! p)) ->
  exists self,
    RA_init str_of Angle_hourangle to_string_hourangle ra (Some m) = Ok self
    /\ RA_tojson self
       = Ok {[ "value" := PStr (to_string_hourangle ang); "source" := PStr a ]}.
Proof.
  intros Hk Hv Hang Hs Ha Hshape Hparts.
  destruct (aliasToSource_resolves str_of m a Hshape Hparts) as [r Hr].
  exists (mkRA ang (to_string_hourangle ang) (Some r)). split.
  - unfold RA_init, getitem, has_key. rewrite Hv, Hs. simpl. rewrite Hang.
    simpl. by rewrite Hr.
  - change (RA_tojson (mkRA ang (to_string_hourangle ang) (Some r)))
      with (alias ← source_alias (Some r);
            n ← py_len alias;
            if Nat.eqb n 0
            then Ok ({[ "value" := PStr (to_string_hourangle ang) ]} : record)
            else Ok {[ "value" := PStr (to_string_hourangle ang);
                       "source" := alias ]}).
    rewrite (source_alias_resolved str_of m a r Hk Hshape Hr). simpl.
    by rewrite nonempty_length.
Qed.

(** X3: an [RA] whose source is an alias with a hyphen and no comma is
    built, whatever the sourcemap holds, and its [tojson] raises: the source
    is the string ['computed'], which has no [alias]. *)
Theorem RA_computed_source_tojson_raises (m : sourcemap) (ra : record)
    (v : pyval) (ang : Angle) (a : string) :
  ra !! "value" = Some v ->
  Angle_hourangle v = Ok ang ->
  ra !! "source" = Some (PStr a) ->
  contains comma a = false ->
  contains hyphen a = true ->
  exists self,
    RA_init str_of Angle_hourangle to_string_hourangle ra (Some m) = Ok self
    /\ RA_source self = Some RComputed
    /\ RA_tojson self = Raise (AttributeError "alias").
Proof.
  intros Hv Hang Hs Hc Hh.
  exists (mkRA ang (to_string_hourangle ang) (Some RComputed)).
  split; [|done].
  unfold RA_init, getitem, has_key. rewrite Hv, Hs. simpl. rewrite Hang. simpl.
  unfold aliasToSource. simpl. by rewrite Hc, Hh.
Qed.

(** X4: a [Dec] built from a record without a [source] reads no sourcemap:
    with any sourcemap, or none, its source is [None] and its [tojson] is
    the one key [value] with the canonical string. *)
Theorem Dec_without_source (sm : option sourcemap) (dec : record) (v : pyval)
    (ang : Angle) :
  dec !! "value" = Some v ->
  Angle_deg v = Ok ang ->
  dec !! "source" = None ->
  exists self,
    Dec_init str_of Angle_deg to_string_deg dec sm = Ok self
    /\ Dec_source self = None
    /\ Dec_tojson self = Ok {[ "value" := PStr (to_string_deg ang) ]}.
Proof.
  intros Hv Hang Hs. exists (mkDec ang (to_string_deg ang) None).
  split; [|done].
  unfold Dec_init, getitem, has_key. rewrite Hv, Hs. simpl. by rewrite Hang.
Qed.

(** X5: [Dec] gives the alias string back as [RA] does. *)
Theorem Dec_tojson_returns_alias (m : sourcemap) (dec : record) (v : pyval)
    (ang : Angle) (a : string) :
  keyed_by_alias m ->
  dec !! "value" = Some v ->
  Angle_deg v = Ok ang ->
  dec !! "source" = Some (PStr a) ->
  a ≠ "" ->
  contains comma a = true \/ contains hyphen a = false ->
  (forall p, p ∈ split comma a -> is_Some (m !! p)) ->
  exists self,
    Dec_init str_of Angle_deg to_string_deg dec (Some m) = Ok self
    /\ Dec_tojson self
       = Ok {[ "value" := PStr (to_string_deg ang); "source" := PStr a ]}.
Proof.
  intros Hk Hv Hang Hs Ha Hshape Hparts.
  destruct (aliasToSource_resolves str_of m a Hshape Hparts) as [r Hr].
  exists (mkDec ang (to_string_deg ang) (Some r)). split.
  - unfold Dec_init, getitem, has_key. rewrite Hv, Hs. simpl. rewrite Hang.
    simpl. by rewrite Hr.
  - unfold Dec_tojson. simpl Dec_source.
    rewrite (source_alias_resolved str_of m a r Hk Hshape Hr). simpl.
    by rewrite nonempty_length.
Qed.

End Coordinate_facts.

(** ** Redshift and DiscoveryDate *)

Section Scalar_facts.

Variable float_of_str : string -> option float.
Variable str_of : pyval -> string.

(** X6: a redshift whose source is the empty string reads no sourcemap:
    with any sourcemap, or none, the source is [None] and [tojson] is the
    one key [value] with the float. *)
Theorem Redshift_empty_source (sm : option sourcemap) (z : record)
    (v : pyval) (f : float) :
  z !! "value" = Some v ->
  py_float float_of_str v = Ok f ->
  z !! "source" = Some (PStr "") ->
  Redshift_init float_of_str str_of z sm = Ok (mkAttr (PFloat f) None)
  /\ DBAttr_tojson (mkAttr (PFloat f) None) = Ok {[ "value" := PFloat f ]}.
Proof.
  intros Hv Hf Hs. split; [|done].
  unfold Redshift_init, getitem, has_key. rewrite Hv, Hs. simpl.
  by rewrite Hf.
Qed.

(** X7: a discovery date whose source is the empty string has no such
    guard: with a sourcemap that has no empty key the constructor raises
    the [KeyError] of the empty string. *)
Theorem DiscoveryDate_empty_source (m : sourcemap) (d : record) (v : pyval) :
  d !! "value" = Some v ->
  d !! "source" = Some (PStr "") ->
  m !! "" = None ->
  DiscoveryDate_init str_of d (Some m) = Raise (KeyError "").
Proof.
  intros Hv Hs Hm. unfold DiscoveryDate_init, getitem, has_key.
  rewrite Hv, Hs. simpl. unfold aliasToSource. simpl.
  unfold getitem. by rewrite Hm.
Qed.

(** X8: a redshift whose source has no length (a number, a boolean,
    [None]) raises a [TypeError], with any sourcemap and with none: the
    length is taken before the sourcemap is looked at. *)
Theorem Redshift_unsized_source (sm : option sourcemap) (z : record)
    (v s : pyval) (f : float) :
  z !! "value" = Some v ->
  py_float float_of_str v = Ok f ->
  z !! "source" = Some s ->
  (forall x, s ≠ PStr x) ->
  is_list s = false ->
  Redshift_init float_of_str str_of z sm = Raise TypeError.
Proof.
  intros Hv Hf Hs Hstr Hlist.
  unfold Redshift_init, getitem, has_key. rewrite Hv, Hs. simpl. rewrite Hf.
  simpl. destruct s as [| | | |x|l]; try done. by destruct (Hstr x).
Qed.

(** X9: with a sourcemap keyed by alias, a discovery date made of a value
    and a source that is a key without a hyphen, or a comma-separated list
    of keys, serialises to the record it was built from. *)
Theorem DiscoveryDate_tojson_roundtrip (m : sourcemap) (v : pyval)
    (a : string) :
  keyed_by_alias m ->
  a ≠ "" ->
  contains comma a = true \/ contains hyphen a = false ->
  (forall p, p ∈ split comma a -> is_Some (m !! p)) ->
  exists self,
    DiscoveryDate_init str_of {[ "value" := v; "source" := PStr a ]} (Some m)
    = Ok self
    /\ DBAttr_tojson self = Ok {[ "value" := v; "source" := PStr a ]}.
Proof.
  intros Hk Ha Hshape Hparts.
  destruct (aliasToSource_resolves str_of m a Hshape Hparts) as [r Hr].
  exists (mkAttr v (Some r)). split.
  - unfold DiscoveryDate_init, getitem, has_key. simplify_map_eq. simpl.
    by rewrite Hr.
  - apply DBAttr_tojson_alias; [|done].
    by apply (source_alias_resolved str_of m a r).
Qed.

(** X10: a redshift with such a source serialises to the float of its
    value and to the alias string it was given. *)
Theorem Redshift_tojson_returns_alias (m : sourcemap) (z : record)
    (v : pyval) (f : float) (a : string) :
  keyed_by_alias m ->
  z !! "value" = Some v ->
  py_float float_of_str v = Ok f ->
  z !! "source" = Some (PStr a) ->
  a ≠ "" ->
  contains comma a = true \/ contains hyphen a = false ->
  (forall p, p ∈ split comma a -> is_Some (m !! p)) ->
  exists self,
    Redshift_init float_of_str str_of z (Some m) = Ok self
    /\ DBAttr_tojson self = Ok {[ "value" := PFloat f; "source" := PStr a ]}.
Proof.
  intros Hk Hv Hf Hs Ha Hshape Hparts.
  destruct (aliasToSource_resolves str_of m a Hshape Hparts) as [r Hr].
  exists (mkAttr (PFloat f) (Some r)). split.
  - unfold Redshift_init, getitem, has_key. rewrite Hv, Hs. simpl. rewrite Hf.
    simpl.
    assert (Hlen : (0 <? String.length a)%nat = true) by (by destruct a).
    rewrite Hlen. simpl. by rewrite Hr.
  - apply DBAttr_tojson_alias; [|done].
    by apply (source_alias_resolved str_of m a r).
Qed.

(** X11: a value whose source is an alias with a hyphen and no comma is
    built, as a redshift and as a discovery date, and the inherited
    [tojson] raises on it. *)
Theorem computed_source_tojson_raises (m : sourcemap) (d : record)
    (v : pyval) (f : float) (a : string) :
  d !! "value" = Some v ->
  py_float float_of_str v = Ok f ->
  d !! "source" = Some (PStr a) ->
  contains comma a = false ->
  contains hyphen a = true ->
  Redshift_init float_of_str str_of d (Some m)
  = Ok (mkAttr (PFloat f) (Some RComputed))
  /\ DiscoveryDate_init str_of d (Some m) = Ok (mkAttr v (Some RComputed))
  /\ forall x, DBAttr_tojson (mkAttr x (Some RComputed))
               = Raise (AttributeError "alias").
Proof.
  intros Hv Hf Hs Hc Hh.
  assert (Hr : aliasToSource str_of (PStr a) (Some m) = Ok RComputed).
  { unfold aliasToSource. simpl. by rewrite Hc, Hh. }
  assert (Hlen : (0 <? String.length a)%nat = true).
  { destruct a; [discriminate|done]. }
  split; [|split; [|done]].
  - unfold Redshift_init, getitem, has_key. rewrite Hv, Hs. simpl. rewrite Hf.
    simpl. rewrite Hlen. simpl. by rewrite Hr.
  - unfold DiscoveryDate_init, getitem, has_key. rewrite Hv, Hs. simpl.
    by rewrite Hr.
Qed.

End Scalar_facts.

(** ** Photometry: the parallel lists *)

Section Photometry_lists.

Variable float_of_str : string -> option float.
Variable str_of : pyval -> string.
Variable np_astype_float : list pyval -> result (list float).

Local Abbreviation to_float := (py_float float_of_str).
Local Abbreviation resolve := (aliasToSource str_of).
Local Abbreviation step := (add_point float_of_str str_of np_astype_float).
Local Abbreviation loop := (add_points float_of_str str_of np_astype_float).
Local Abbreviation init := (Photometry_init float_of_str str_of np_astype_float).

Local Abbreviation mag_of := (mag_entry float_of_str).
Local Abbreviation source_of := (source_entry str_of).
Local Abbreviation time_of := (time_entry float_of_str).

(** What a successful turn of the loop did to the other lists. *)
Lemma add_point_fields (sm : option sourcemap) (self self' : Photometry)
    (d : record) :
  step sm self d = Ok self' ->
  band self' = band self
  /\ json self' = json self
  /\ (exists r, source_of sm d r /\ source self' = (source self ++ [r])%list)
  /\ (exists mg, mag_of d mg /\ mag self' = (mag self ++ [mg])%list)
  /\ wavelength self' = (wavelength self ++ [default PNone (d !! "wavelength")])%list
  /\ upperlimit self' = (upperlimit self ++ [has_key d "upperlimit"])%list.
Proof.
  unfold add_point, mag_entry, source_entry. intros H.
  destruct (bool_decide (reqKeys ⊆ dom d)) eqn:Hreq; simpl in H;
    [|discriminate].
  apply bool_decide_eq_true in Hreq.
  destruct (reqKeys_present d Hreq) as [[tv Ht] [[lv Hl] [sv Hs]]].
  unfold getitem, has_key in *. rewrite Ht, Hl, Hs in H. simpl in H.
  destruct (store_time _ _ (time self) tv) as [t'|]; simpl in H;
    [|discriminate].
  destruct (resolve sv sm) as [src|] eqn:Esrc; simpl in H; [|discriminate].
  destruct (to_float lv) as [lf|]; simpl in H; [|discriminate].
  destruct (d !! "flux") as [fv|]; simpl in H;
    try (destruct (to_float fv) as [ff|]; simpl in H; [|discriminate]);
    destruct (d !! "magnitude") as [mv|]; simpl in H;
    try (destruct (to_float mv) as [mf|] eqn:Emf; simpl in H; [|discriminate]);
    destruct (d !! "wavelength") as [wv|]; simpl in H;
    destruct (d !! "upperlimit") as [uv|]; simpl in H;
    injection H as <-; simpl;
    (split; [done|]); (split; [done|]);
    (split; [exists src; split; [by exists sv|done]|]);
    (split; [|done]); eexists; (split; [|reflexivity]);
    try done; by eexists.
Qed.

(** The loop, from any state: each list grows by one entry per record, in
    the order of the records. *)
Lemma add_points_fields (sm : option sourcemap) (photometry : list record)
    (self self' : Photometry) :
  loop sm self photometry = Ok self' ->
  band self' = band self
  /\ json self' = json self
  /\ (exists rs, Forall2 (source_of sm) photometry rs
                 /\ source self' = (source self ++ rs)%list)
  /\ (exists ms, Forall2 mag_of photometry ms
                 /\ mag self' = (mag self ++ ms)%list)
  /\ wavelength self'
     = (wavelength self
        ++ ((fun d : record => default PNone (d !! "wavelength")) <$> photometry))%list
  /\ upperlimit self'
     = (upperlimit self
        ++ ((fun d : record => has_key d "upperlimit") <$> photometry))%list.
Proof.
  revert self. induction photometry as [|d rest IH]; intros self H; simpl in H.
  - injection H as <-. repeat split; try (by rewrite app_nil_r).
    + exists []. split; [constructor|by rewrite app_nil_r].
    + exists []. split; [constructor|by rewrite app_nil_r].
  - destruct (step sm self d) as [s1|] eqn:E1; simpl in H; [|discriminate].
    apply add_point_fields in E1
      as (Hb1 & Hj1 & (r & Hr & Hs1) & (mg & Hmg & Hm1) & Hw1 & Hu1).
    apply IH in H as (Hb & Hj & (rs & Hrs & Hs) & (ms & Hms & Hm) & Hw & Hu).
    split; [congruence|]. split; [congruence|].
    split; [|split; [|split]].
    + exists (r :: rs). split; [by constructor|].
      rewrite Hs, Hs1. by rewrite <- app_assoc.
    + exists (mg :: ms). split; [by constructor|].
      rewrite Hm, Hm1. by rewrite <- app_assoc.
    + rewrite Hw, Hw1. by rewrite <- app_assoc.
    + rewrite Hu, Hu1. by rewrite <- app_assoc.
Qed.

(** What a successful turn of the loop did to the time field. *)
Lemma add_point_time (sm : option sourcemap) (self self' : Photometry)
    (d : record) :
  step sm self d = Ok self' ->
  if seq_time d then
    exists l fs, d !! "time" = Some (PList l) /\ np_astype_float l = Ok fs
                 /\ time self' = TMean (np_mean fs)
  else
    exists ts f, time self = TList ts /\ time_of d f
                 /\ time self' = TList (ts ++ [f]).
Proof.
  intros H.
  apply (add_point_Ok float_of_str str_of np_astype_float) in H
    as [_ [[tv [Ht Hst]] _]].
  unfold seq_time, time_entry. rewrite Ht.
  destruct tv as [| | | | |l]; unfold store_time in Hst.
  6: { destruct (np_astype_float l) as [fs|e] eqn:Efs; simpl in Hst;
         [|discriminate Hst].
       exists l, fs. by injection Hst as <-. }
  all: destruct (time self) as [ts|]; [|discriminate];
    match type of Hst with
    | context [py_float ?p ?x] => destruct (py_float p x) as [g|] eqn:Eg
    end; simpl in Hst; [|discriminate];
    exists ts, g; injection Hst as <-; (split; [done|]); (split; [|done]);
    eexists; (split; [reflexivity|]); exact Eg.
Qed.

Lemma init_Ok (sm : option sourcemap) (b : pyval) (photometry : list record)
    (p : Photometry) :
  init photometry b sm = Ok p ->
  exists self,
    loop sm (Photometry_empty b) photometry = Ok self
    /\ band p = band self /\ time p = time self
    /\ luminosity p = luminosity self /\ flux p = flux self
    /\ mag p = mag self /\ wavelength p = wavelength self
    /\ source p = source self /\ upperlimit p = upperlimit self
    /\ json p = clean <$> photometry.
Proof.
  unfold Photometry_init. intros H.
  destruct (loop sm (Photometry_empty b) photometry) as [self|]; simpl in H;
    [|discriminate].
  exists self. injection H as <-. by repeat split.
Qed.

(** The luminosity and flux lists after the loop, from any state. *)
Lemma add_points_flux (sm : option sourcemap) (photometry : list record)
    (self self' : Photometry) :
  loop sm self photometry = Ok self' ->
  length (flux self')
  = (length (flux self)
     + length (List.filter (fun d : record => has_key d "flux") photometry))%nat
  /\ (length (luminosity self') + length (flux self')
      = length (luminosity self) + length (flux self)
        + 2 * length photometry)%nat.
Proof.
  revert self. induction photometry as [|d rest IH]; intros self H; simpl in H.
  - injection H as <-. simpl. lia.
  - destruct (step sm self d) as [s1|] eqn:E1; simpl in H; [|discriminate].
    apply IH in H as [Hf Hl].
    apply (add_point_Ok float_of_str str_of np_astype_float) in E1
      as [_ [_ [lv [lf [_ [_ Hflux]]]]]].
    cbn [List.filter length].
    assert (Hk : has_key d "flux" = bool_decide (is_Some (d !! "flux"))).
    { unfold has_key. by destruct (d !! "flux"). }
    rewrite Hk. clear Hk.
    destruct (d !! "flux") as [fv|].
    + destruct Hflux as [ff [_ [Hl1 Hf1]]]. rewrite Hl1, Hf1 in *.
      rewrite bool_decide_eq_true_2 by done. cbn [length].
      rewrite !length_app in *. cbn [length] in *. lia.
    + destruct Hflux as [Hl1 Hf1]. rewrite Hl1, Hf1 in *.
      rewrite bool_decide_eq_false_2 by (by intros [? ?]).
      rewrite !length_app in *. cbn [length] in *. lia.
Qed.

(** X12: in a photometry that was built, [source], [mag], [wavelength],
    [upperlimit] and [json] have one entry per record; [flux] has one entry
    per record with a flux, and [luminosity] has the others of two entries
    per record; the band is the one given. *)
Theorem Photometry_list_lengths (sm : option sourcemap) (b : pyval)
    (photometry : list record) (p : Photometry) :
  init photometry b sm = Ok p ->
  band p = b
  /\ length (source p) = length photometry
  /\ length (mag p) = length photometry
  /\ length (wavelength p) = length photometry
  /\ length (upperlimit p) = length photometry
  /\ length (json p) = length photometry
  /\ length (flux p)
     = length (List.filter (fun d : record => has_key d "flux") photometry)
  /\ (length (luminosity p) + length (flux p) = 2 * length photometry)%nat.
Proof.
  intros H. apply init_Ok in H
    as (self & Hloop & -> & _ & -> & -> & -> & -> & -> & -> & ->).
  destruct (add_points_flux sm photometry _ _ Hloop) as [Hf Hl].
  apply add_points_fields in Hloop
    as (Hb & _ & (rs & Hrs & Hs) & (ms & Hms & Hm) & Hw & Hu).
  rewrite Hs, Hm, Hw, Hu. simpl in *.
  apply Forall2_length in Hrs. apply Forall2_length in Hms.
  rewrite !length_fmap. repeat split; try done; lia.
Qed.

(** X13: the upper-limit flag of a record is the presence of the key
    [upperlimit], whatever its value is. *)
Theorem Photometry_upperlimit_is_key_presence (sm : option sourcemap)
    (b : pyval) (photometry : list record) (p : Photometry) :
  init photometry b sm = Ok p ->
  upperlimit p = (fun d : record => has_key d "upperlimit") <$> photometry.
Proof.
  intros H. apply init_Ok in H
    as (self & Hloop & _ & _ & _ & _ & _ & _ & _ & -> & _).
  by apply add_points_fields in Hloop as (_ & _ & _ & _ & _ & ->).
Qed.

(** X14: the wavelength of a record is kept as it is, [None] standing for a
    record without one; the magnitude is converted to a float, [None]
    standing for a record without one. *)
Theorem Photometry_wavelength_and_mag (sm : option sourcemap) (b : pyval)
    (photometry : list record) (p : Photometry) :
  init photometry b sm = Ok p ->
  wavelength p
  = (fun d : record => default PNone (d !! "wavelength")) <$> photometry
  /\ Forall2 mag_of photometry (mag p).
Proof.
  intros H. apply init_Ok in H
    as (self & Hloop & _ & _ & _ & _ & -> & -> & _ & _ & _).
  apply add_points_fields in Hloop
    as (_ & _ & _ & (ms & Hms & ->) & -> & _).
  done.
Qed.

(** X15: the sources of a photometry are what the aliases of its records
    resolve to, one per record and in the order of the records. *)
Theorem Photometry_sources_in_order (sm : option sourcemap) (b : pyval)
    (photometry : list record) (p : Photometry) :
  init photometry b sm = Ok p ->
  Forall2 (source_of sm) photometry (source p).
Proof.
  intros H. apply init_Ok in H
    as (self & Hloop & _ & _ & _ & _ & _ & _ & -> & _ & _).
  by apply add_points_fields in Hloop as (_ & _ & (rs & Hrs & ->) & _).
Qed.

(** ** Photometry: the time field *)

Lemma add_points_scalar_times (sm : option sourcemap)
    (photometry : list record) (self self' : Photometry) (ts : list float) :
  loop sm self photometry = Ok self' ->
  time self = TList ts ->
  Forall (fun d => seq_time d = false) photometry ->
  exists fs, Forall2 time_of photometry fs /\ time self' = TList (ts ++ fs).
Proof.
  revert self ts.
  induction photometry as [|d rest IH]; intros self ts H Hts Hall; simpl in H.
  - injection H as <-. exists []. split; [constructor|by rewrite app_nil_r].
  - destruct (step sm self d) as [s1|] eqn:E1; simpl in H; [|discriminate].
    inversion Hall as [|? ? Hd Hrest]; subst.
    apply add_point_time in E1. rewrite Hd in E1.
    destruct E1 as (ts' & f & Hts' & Hf & Hs1).
    assert (ts' = ts) as -> by congruence.
    destruct (IH s1 _ H Hs1 Hrest) as (fs & Hfs & Hfinal).
    exists (f :: fs). split; [by constructor|].
    rewrite Hfinal. by rewrite <- app_assoc.
Qed.

(** X16: when no record gives its time as a sequence, the time field of the
    photometry is the list of the floats of the times, one per record and
    in the order of the records. *)
Theorem Photometry_scalar_times_in_order (sm : option sourcemap) (b : pyval)
    (photometry : list record) (p : Photometry) :
  init photometry b sm = Ok p ->
  Forall (fun d => seq_time d = false) photometry ->
  exists fs, Forall2 time_of photometry fs /\ time p = TList fs.
Proof.
  intros H Hall. apply init_Ok in H as (self & Hloop & _ & -> & _).
  by apply (add_points_scalar_times sm photometry (Photometry_empty b) self []).
Qed.

(** X17: when the last record gives its time as a sequence, the time field
    of the photometry is the mean of that sequence alone: the times of the
    records before it are not kept. *)
Theorem Photometry_last_sequence_wins (sm : option sourcemap) (b : pyval)
    (pre : list record) (d : record) (l : list pyval) (p : Photometry) :
  init (pre ++ [d]) b sm = Ok p ->
  d !! "time" = Some (PList l) ->
  exists fs, np_astype_float l = Ok fs /\ time p = TMean (np_mean fs).
Proof.
  intros H Hl. apply init_Ok in H as (self & Hloop & _ & -> & _).
  rewrite (add_points_app float_of_str str_of np_astype_float) in Hloop.
  destruct (loop sm (Photometry_empty b) pre) as [s0|]; simpl in Hloop;
    [|discriminate].
  destruct (step sm s0 d) as [s1|] eqn:E1; simpl in Hloop; [|discriminate].
  injection Hloop as <-. apply add_point_time in E1.
  unfold seq_time in E1. rewrite Hl in E1.
  destruct E1 as (l' & fs & Hl' & Hfs & Ht). injection Hl' as <-.
  by exists fs.
Qed.

Lemma add_points_after_mean (sm : option sourcemap)
    (photometry : list record) (self self' : Photometry) (m : float) :
  loop sm self photometry = Ok self' ->
  time self = TMean m ->
  Forall (fun d => seq_time d = true) photometry.
Proof.
  revert self m.
  induction photometry as [|d rest IH]; intros self m H Hm; simpl in H.
  - constructor.
  - destruct (step sm self d) as [s1|] eqn:E1; simpl in H; [|discriminate].
    apply add_point_time in E1.
    destruct (seq_time d) eqn:Hd.
    + destruct E1 as (l & fs & _ & _ & Hs1).
      constructor; [done|]. by apply (IH s1 _ H Hs1).
    + destruct E1 as (ts & f & Hts & _). congruence.
Qed.

(** X18: a photometry is built only from records in which every time given
    as a number comes before every time given as a sequence. *)
Theorem Photometry_accepts_only_scalars_first (sm : option sourcemap)
    (b : pyval) (photometry : list record) (p : Photometry) :
  init photometry b sm = Ok p ->
  exists pre post,
    photometry = (pre ++ post)%list
    /\ Forall (fun d => seq_time d = false) pre
    /\ Forall (fun d => seq_time d = true) post.
Proof.
  intros H. apply init_Ok in H as (self & Hloop & _).
  revert Hloop. generalize (Photometry_empty b) as s0. clear p.
  induction photometry as [|d rest IH]; intros s0 H; simpl in H.
  - exists [], []. by repeat split.
  - destruct (step sm s0 d) as [s1|] eqn:E1; simpl in H; [|discriminate].
    destruct (seq_time d) eqn:Hd.
    + apply add_point_time in E1. rewrite Hd in E1.
      destruct E1 as (l & fs & _ & _ & Hs1).
      exists [], (d :: rest). split; [done|]. split; [constructor|].
      constructor; [done|]. by apply (add_points_after_mean sm rest s1 self (np_mean fs) H).
    + destruct (IH s1 H) as (pre & post & -> & Hpre & Hpost).
      exists (d :: pre), post. split; [done|]. split; [|done].
      by constructor.
Qed.

(** ** Photometry: the default sourcemap *)

(** X19: without a sourcemap a photometry is refused at its first record,
    with a [TypeError], when the alias of that record has a comma or has
    no hyphen: [None] is subscripted. *)
Theorem Photometry_without_sourcemap (b : pyval) (d : record)
    (rest : list record) (tv : pyval) (t : timeval) (a : pyval) :
  reqKeys ⊆ dom d ->
  d !! "time" = Some tv ->
  store_time float_of_str np_astype_float (TList []) tv = Ok t ->
  d !! "source" = Some a ->
  contains comma (py_str str_of a) = true
  \/ contains hyphen (py_str str_of a) = false ->
  init (d :: rest) b None = Raise TypeError.
Proof.
  intros Hreq Ht Hst Hs Hshape. unfold Photometry_init. simpl.
  unfold add_point. rewrite bool_decide_eq_true_2 by done. simpl.
  unfold getitem. rewrite Ht, Hs. simpl. rewrite Hst. simpl.
  unfold aliasToSource.
  destruct (contains comma (py_str str_of a)) eqn:Hc.
  - pose proof (split_nonempty comma (py_str str_of a)) as Hne.
    destruct (split comma (py_str str_of a)); done.
  - destruct Hshape as [? | ->]; done.
Qed.

(** ** Photometry: the records kept for serialisation *)

Lemma clean_lookup (obs : record) (k : string) :
  clean obs !! k
  = match obs !! k with
    | Some PNone => None
    | o => o
    end.
Proof.
  unfold clean. rewrite map_lookup_filter.
  destruct (obs !! k) as [v|]; [|done]. simpl.
  destruct v; simpl; by rewrite ?option_guard_True, ?option_guard_False.
Qed.

(** X20: [json] has, for each record and in their order, the record without
    the keys whose value is [None]: such a key is absent, every other key
    has the value it had, and no value of [json] is [None]. *)
Theorem Photometry_json_drops_None (sm : option sourcemap) (b : pyval)
    (photometry : list record) (p : Photometry) :
  init photometry b sm = Ok p ->
  Forall2 (fun (obs j : record) =>
             (forall k, obs !! k = Some PNone -> j !! k = None)
             /\ (forall k, obs !! k ≠ Some PNone -> j !! k = obs !! k)
             /\ (forall k, j !! k ≠ Some PNone))
          photometry (json p).
Proof.
  intros H. apply init_Ok in H as (self & _ & _ & _ & _ & _ & _ & _ & _ & _ & ->).
  clear. induction photometry as [|obs rest IH]; simpl; constructor; [|done].
  repeat split; intros k; rewrite clean_lookup.
  - by intros ->.
  - intros Hk. destruct (obs !! k) as [[]|]; done.
  - destruct (obs !! k) as [[]|]; done.
Qed.

End Photometry_lists.

(** ** Source and Name *)

(** X21: a source is built exactly from the records that have the three
    keys; otherwise the [KeyError] is the one of the first key missing
    among [name], [bibcode] and [alias], in this order. *)
Theorem Source_init_first_missing_key (x : record) :
  (succeeds (Source_init x)
   <-> is_Some (x !! "name") /\ is_Some (x !! "bibcode")
       /\ is_Some (x !! "alias"))
  /\ (x !! "name" = None -> Source_init x = Raise (KeyError "name"))
  /\ (is_Some (x !! "name") -> x !! "bibcode" = None ->
      Source_init x = Raise (KeyError "bibcode"))
  /\ (is_Some (x !! "name") -> is_Some (x !! "bibcode") ->
      x !! "alias" = None -> Source_init x = Raise (KeyError "alias")).
Proof.
  unfold Source_init, getitem, succeeds.
  destruct (x !! "name") as [n|], (x !! "bibcode") as [b|],
    (x !! "alias") as [a|]; simpl;
    (split; [split; [intros [s Hs]; try discriminate; by repeat split
                    |intros ([? ?] & [? ?] & [? ?]); try discriminate;
                     by eexists]|]);
    (split; [intros; try discriminate; done|]);
    (split; [intros [? ?] ?; try discriminate; done|]);
    intros [? ?] [? ?] ?; try discriminate; done.
Qed.

Lemma Source_init_first_missing_key_witness :
  Source_init {[ "name" := PStr "Alpha et al."; "extra" := PInt 1 ]}
  = Raise (KeyError "bibcode").
Proof.
  apply (proj1 (proj2 (proj2 (Source_init_first_missing_key
           {[ "name" := PStr "Alpha et al."; "extra" := PInt 1 ]})))).
  - by eexists.
  - reflexivity.
Defined.

(** X22: aliases that are not [None], the empty list among them, are kept:
    the name and the aliases are read back by [__getitem__], and
    [strname] is the class attribute. *)
Theorem Name_with_aliases (n a : pyval) :
  a ≠ PNone ->
  DBAttr_getitem Name_strname (Name_init n a) "name" = Ok (AVal n)
  /\ DBAttr_getitem Name_strname (Name_init n a) "aliases" = Ok (AVal a)
  /\ DBAttr_getitem Name_strname (Name_init n a) "strname"
     = Ok (AVal (PStr "name"))
  /\ dom (Name_init n a) = {[ "name"; "aliases" ]}.
Proof.
  intros Ha. unfold DBAttr_getitem, getattr, Name_init.
  destruct a; try done; simplify_map_eq; repeat split; try done;
    rewrite dom_insert_L, dom_singleton_L; set_solver.
Qed.

Lemma Name_with_aliases_witness :
  DBAttr_getitem Name_strname (Name_init (PStr "AT2018hyz") (PList [])) "aliases"
  = Ok (AVal (PList [])).
Proof.
  apply (Name_with_aliases (PStr "AT2018hyz") (PList [])). discriminate.
Defined.

(** ** Witnesses *)

Lemma sm_ab_keyed : keyed_by_alias sm_ab.
Proof.
  intros k s H. unfold sm_ab in H.
  apply lookup_insert_Some in H as [[<- <-]|[_ H]]; [done|].
  by apply lookup_singleton_Some in H as [<- <-].
Qed.

Lemma sm_ab_parts (l : list string) :
  Forall (fun p => p = "a" \/ p = "b") l ->
  forall p, p ∈ l -> is_Some (sm_ab !! p).
Proof.
  intros Hl p Hp. rewrite Forall_forall in Hl.
  destruct (Hl p Hp) as [-> | ->]; by eexists.
Qed.

Lemma RA_tojson_returns_alias_witness :
  exists self,
    RA_init str_of_atom angle_of_str id coord_ab (Some sm_ab) = Ok self
    /\ RA_tojson self
       = Ok {[ "value" := PStr "12:30:00"; "source" := PStr "b,a" ]}.
Proof.
  apply (RA_tojson_returns_alias str_of_atom string angle_of_str id sm_ab
           coord_ab (PStr "12:30:00") "12:30:00" "b,a").
  - exact sm_ab_keyed.
  - reflexivity.
  - reflexivity.
  - reflexivity.
  - discriminate.
  - left. reflexivity.
  - apply sm_ab_parts. vm_compute.
    repeat (constructor; [first [by left | by right]|]). constructor.
Defined.

Lemma RA_computed_source_tojson_raises_witness :
  exists self,
    RA_init str_of_atom angle_of_str id coord_uuid (Some sm_ab) = Ok self
    /\ RA_source self = Some RComputed
    /\ RA_tojson self = Raise (AttributeError "alias").
Proof.
  apply (RA_computed_source_tojson_raises str_of_atom string angle_of_str id
           sm_ab coord_uuid (PStr "12:30:00") "12:30:00" "uuid-1234");
    reflexivity.
Defined.

Lemma Dec_without_source_witness :
  exists self,
    Dec_init str_of_atom angle_of_str id {[ "value" := PStr "-05:10:00" ]}
      (Some sm_ab) = Ok self
    /\ Dec_source self = None
    /\ Dec_tojson self = Ok {[ "value" := PStr "-05:10:00" ]}.
Proof.
  apply (Dec_without_source str_of_atom string angle_of_str id (Some sm_ab)
           {[ "value" := PStr "-05:10:00" ]} (PStr "-05:10:00") "-05:10:00");
    reflexivity.
Defined.

Lemma Dec_tojson_returns_alias_witness :
  exists self,
    Dec_init str_of_atom angle_of_str id coord_ab (Some sm_ab) = Ok self
    /\ Dec_tojson self
       = Ok {[ "value" := PStr "12:30:00"; "source" := PStr "b,a" ]}.
Proof.
  apply (Dec_tojson_returns_alias str_of_atom string angle_of_str id sm_ab
           coord_ab (PStr "12:30:00") "12:30:00" "b,a").
  - exact sm_ab_keyed.
  - reflexivity.
  - reflexivity.
  - reflexivity.
  - discriminate.
  - left. reflexivity.
  - apply sm_ab_parts. vm_compute.
    repeat (constructor; [first [by left | by right]|]). constructor.
Defined.

Lemma Redshift_empty_source_witness :
  Redshift_init float_of_digits str_of_atom
    {[ "value" := PStr "2"; "source" := PStr "" ]} (Some sm_ab)
  = Ok (mkAttr (PFloat (FNum 2)) None)
  /\ DBAttr_tojson (mkAttr (PFloat (FNum 2)) None)
     = Ok {[ "value" := PFloat (FNum 2) ]}.
Proof.
  apply (Redshift_empty_source float_of_digits str_of_atom (Some sm_ab)
           {[ "value" := PStr "2"; "source" := PStr "" ]} (PStr "2") (FNum 2));
    reflexivity.
Defined.

Lemma DiscoveryDate_empty_source_witness :
  DiscoveryDate_init str_of_atom
    {[ "value" := PStr "2018-11-06"; "source" := PStr "" ]} (Some sm_ab)
  = Raise (KeyError "").
Proof.
  apply (DiscoveryDate_empty_source str_of_atom sm_ab
           {[ "value" := PStr "2018-11-06"; "source" := PStr "" ]}
           (PStr "2018-11-06")); reflexivity.
Defined.

Lemma Redshift_unsized_source_witness :
  Redshift_init float_of_digits str_of_atom
    {[ "value" := PStr "2"; "source" := PNone ]} None
  = Raise TypeError.
Proof.
  apply (Redshift_unsized_source float_of_digits str_of_atom None
           {[ "value" := PStr "2"; "source" := PNone ]} (PStr "2") PNone
           (FNum 2)); try reflexivity.
  discriminate.
Defined.

Lemma DiscoveryDate_tojson_roundtrip_witness :
  exists self,
    DiscoveryDate_init str_of_atom
      {[ "value" := PStr "2018-11-06"; "source" := PStr "b,a" ]} (Some sm_ab)
    = Ok self
    /\ DBAttr_tojson self
       = Ok {[ "value" := PStr "2018-11-06"; "source" := PStr "b,a" ]}.
Proof.
  apply (DiscoveryDate_tojson_roundtrip str_of_atom sm_ab (PStr "2018-11-06")
           "b,a").
  - exact sm_ab_keyed.
  - discriminate.
  - left. reflexivity.
  - apply sm_ab_parts. vm_compute.
    repeat (constructor; [first [by left | by right]|]). constructor.
Defined.

Lemma Redshift_tojson_returns_alias_witness :
  exists self,
    Redshift_init float_of_digits str_of_atom z_ab (Some sm_ab) = Ok self
    /\ DBAttr_tojson self
       = Ok {[ "value" := PFloat (FNum 2); "source" := PStr "b,a" ]}.
Proof.
  apply (Redshift_tojson_returns_alias float_of_digits str_of_atom sm_ab z_ab
           (PStr "2") (FNum 2) "b,a").
  - exact sm_ab_keyed.
  - reflexivity.
  - reflexivity.
  - reflexivity.
  - discriminate.
  - left. reflexivity.
  - apply sm_ab_parts. vm_compute.
    repeat (constructor; [first [by left | by right]|]). constructor.
Defined.

Lemma computed_source_tojson_raises_witness :
  Redshift_init float_of_digits str_of_atom z_uuid (Some sm_ab)
  = Ok (mkAttr (PFloat (FNum 2)) (Some RComputed))
  /\ DiscoveryDate_init str_of_atom z_uuid (Some sm_ab)
     = Ok (mkAttr (PStr "2") (Some RComputed))
  /\ forall x, DBAttr_tojson (mkAttr x (Some RComputed))
               = Raise (AttributeError "alias").
Proof.
  apply (computed_source_tojson_raises float_of_digits str_of_atom sm_ab
           z_uuid (PStr "2") (FNum 2) "uuid-1234"); reflexivity.
Defined.

(** The photometry of the examples. *)
Lemma Photometry_list_lengths_witness :
  exists p,
    Photometry_ex [d_scalar; d_flux; d_upper; d_seq] (Some sm_ab) = Ok p
    /\ band p = PStr "V"
    /\ length (source p) = 4%nat
    /\ length (mag p) = 4%nat
    /\ length (wavelength p) = 4%nat
    /\ length (upperlimit p) = 4%nat
    /\ length (json p) = 4%nat
    /\ length (flux p) = 1%nat
    /\ (length (luminosity p) + length (flux p) = 8)%nat.
Proof.
  eexists. split; [reflexivity|].
  apply (Photometry_list_lengths float_of_digits str_of_atom floats_of_flat
           (Some sm_ab) (PStr "V") [d_scalar; d_flux; d_upper; d_seq]).
  reflexivity.
Defined.

Lemma Photometry_upperlimit_is_key_presence_witness :
  exists p,
    Photometry_ex [d_scalar; d_upper] (Some sm_ab) = Ok p
    /\ upperlimit p = [false; true].
Proof.
  eexists. split; [reflexivity|].
  apply (Photometry_upperlimit_is_key_presence float_of_digits str_of_atom
           floats_of_flat (Some sm_ab) (PStr "V") [d_scalar; d_upper]).
  reflexivity.
Defined.

Lemma Photometry_wavelength_and_mag_witness :
  exists p,
    Photometry_ex [d_scalar; d_upper] (Some sm_ab) = Ok p
    /\ wavelength p = [PNone; PNone]
    /\ Forall2 (mag_entry float_of_digits) [d_scalar; d_upper] (mag p).
Proof.
  eexists. split; [reflexivity|].
  apply (Photometry_wavelength_and_mag float_of_digits str_of_atom
           floats_of_flat (Some sm_ab) (PStr "V") [d_scalar; d_upper]).
  reflexivity.
Defined.

Lemma Photometry_sources_in_order_witness :
  exists p,
    Photometry_ex [d_scalar; d_upper] (Some sm_ab) = Ok p
    /\ Forall2 (source_entry str_of_atom (Some sm_ab)) [d_scalar; d_upper]
         (source p).
Proof.
  eexists. split; [reflexivity|].
  apply (Photometry_sources_in_order float_of_digits str_of_atom
           floats_of_flat (Some sm_ab) (PStr "V") [d_scalar; d_upper]).
  reflexivity.
Defined.

Lemma Photometry_scalar_times_in_order_witness :
  exists p,
    Photometry_ex [d_scalar; d_upper] (Some sm_ab) = Ok p
    /\ exists fs, Forall2 (time_entry float_of_digits) [d_scalar; d_upper] fs
                  /\ time p = TList fs.
Proof.
  eexists. split; [reflexivity|].
  apply (Photometry_scalar_times_in_order float_of_digits str_of_atom
           floats_of_flat (Some sm_ab) (PStr "V") [d_scalar; d_upper]).
  - reflexivity.
  - repeat constructor.
Defined.

Lemma Photometry_last_sequence_wins_witness :
  exists p,
    Photometry_ex [d_scalar; d_upper; d_seq] (Some sm_ab) = Ok p
    /\ exists fs, floats_of_flat [PInt 1; PInt 2; PInt 3] = Ok fs
                  /\ time p = TMean (np_mean fs).
Proof.
  eexists. split; [reflexivity|].
  apply (Photometry_last_sequence_wins float_of_digits str_of_atom
           floats_of_flat (Some sm_ab) (PStr "V") [d_scalar; d_upper] d_seq).
  - reflexivity.
  - reflexivity.
Defined.

Lemma Photometry_accepts_only_scalars_first_witness :
  exists pre post,
    [d_scalar; d_upper; d_seq] = (pre ++ post)%list
    /\ Forall (fun d => seq_time d = false) pre
    /\ Forall (fun d => seq_time d = true) post.
Proof.
  eapply (Photometry_accepts_only_scalars_first float_of_digits str_of_atom
            floats_of_flat (Some sm_ab) (PStr "V") [d_scalar; d_upper; d_seq]).
  reflexivity.
Defined.

Lemma Photometry_without_sourcemap_witness :
  Photometry_init float_of_digits str_of_atom floats_of_flat
    [d_scalar; d_seq] (PStr "V") None
  = Raise TypeError.
Proof.
  apply (Photometry_without_sourcemap float_of_digits str_of_atom
           floats_of_flat (PStr "V") d_scalar [d_seq] (PInt 4)
           (TList [FNum 4]) (PStr "b")).
  - apply (bool_decide_eq_true_1 (reqKeys ⊆ dom d_scalar)). reflexivity.
  - reflexivity.
  - reflexivity.
  - reflexivity.
  - right. reflexivity.
Defined.

Lemma Photometry_json_drops_None_witness :
  exists p,
    Photometry_ex [d_scalar; d_upper] (Some sm_ab) = Ok p
    /\ Forall2 (fun (obs j : record) =>
                  (forall k, obs !! k = Some PNone -> j !! k = None)
                  /\ (forall k, obs !! k ≠ Some PNone -> j !! k = obs !! k)
                  /\ (forall k, j !! k ≠ Some PNone))
         [d_scalar; d_upper] (json p).
Proof.
  eexists. split; [reflexivity|].
  apply (Photometry_json_drops_None float_of_digits str_of_atom
           floats_of_flat (Some sm_ab) (PStr "V") [d_scalar; d_upper]).
  reflexivity.
Defined.

Lemma d_upper_valid :
  valid_point float_of_digits str_of_atom floats_of_flat (Some sm_ab) d_upper.
Proof. valid_example. Qed.

Lemma scalars_then_sequences_succeed_witness :
  succeeds (Photometry_ex ([d_scalar; d_upper] ++ [d_seq; d_seq]) (Some sm_ab)).
Proof.
  apply (scalars_then_sequences_succeed float_of_digits str_of_atom
           floats_of_flat (Some sm_ab) (PStr "V") [d_scalar; d_upper]
           [d_seq; d_seq]).
  - repeat constructor; first [apply d_scalar_valid | apply d_upper_valid
                              | apply d_seq_valid].
  - repeat constructor.
  - repeat constructor.
Defined.

Lemma sequence_then_scalar_refused_witness :
  Photometry_ex [d_seq; d_upper] (Some sm_ab) = Raise (AttributeError "append").
Proof.
  apply (sequence_then_scalar_refused float_of_digits str_of_atom
           floats_of_flat (Some sm_ab) (PStr "V") d_seq d_upper).
  - apply d_seq_valid.
  - apply (bool_decide_eq_true_1 (reqKeys ⊆ dom d_upper)). reflexivity.
  - reflexivity.
  - reflexivity.
Defined.

(** ** DBAttr.tojson: the shape of the result *)

(** X25: what the inherited [tojson] returns always has the value under
    [value] and has no other key than [value] and [source]; a [source] it
    has is never of length zero. *)
Theorem DBAttr_tojson_shape (self : Attr) (j : record) :
  DBAttr_tojson self = Ok j ->
  j !! "value" = Some (attr_value self)
  /\ dom j ⊆ {[ "value"; "source" ]}
  /\ forall a, j !! "source" = Some a -> exists n, py_len a = Ok (S n).
Proof.
  unfold DBAttr_tojson. intros H.
  destruct (source_alias (attr_source self)) as [a|]; simpl in H;
    [|discriminate].
  destruct (py_len a) as [n|] eqn:Hn; simpl in H; [|discriminate].
  destruct n as [|n]; simpl in H; injection H as <-.
  - split; [by simplify_map_eq|]. split.
    + rewrite dom_singleton_L. set_solver.
    + intros x Hx. by simplify_map_eq.
  - split; [by simplify_map_eq|]. split.
    + rewrite dom_insert_L, dom_singleton_L. set_solver.
    + intros x Hx. simplify_map_eq. by exists n.
Qed.

Lemma DBAttr_tojson_shape_witness :
  exists j,
    DBAttr_tojson (mkAttr (PInt 7) (Some (RList [Sb; Sa]))) = Ok j
    /\ j !! "value" = Some (PInt 7)
    /\ dom j ⊆ {[ "value"; "source" ]}
    /\ forall a, j !! "source" = Some a -> exists n, py_len a = Ok (S n).
Proof.
  eexists. split; [reflexivity|].
  apply (DBAttr_tojson_shape (mkAttr (PInt 7) (Some (RList [Sb; Sa])))).
  reflexivity.
Defined.
